(** * vmupdate: the connection to a qube (qube_connection.py, agent/source/status.py)

    A shallow embedding of [QubeConnection] and of the status values it
    sends, with the properties of its command runner, output collector,
    transfer pipeline and teardown.

    Conventions of the embedding:
    - a Python [str] is the list of its code points ([str]), a Python
      [bytes] the list of its bytes ([bytes]);
    - a Python [int] exit code is a [Z] (a process killed by a signal has a
      negative return code);
    - the object's mutable fields, the qube behind [self.qube] and the
      calls made to collaborators (status notifier, logger, qube handle)
      live in one record, threaded through a state-and-exception monad. *)

From Stdlib Require Import ZArith NArith List String Ascii Bool Lia.
From Stdlib Require Import DecimalString.
From Stdlib Require Import Strings.Byte.
Import ListNotations.

Set Implicit Arguments.

(* ================================================================== *)
(** ** Text and bytes *)

Module Text.

(** A [str]: the sequence of its Unicode code points. *)
Definition str := list N.

(** A [bytes] object. *)
Definition bytes := list byte.

(** A literal of the source, all of them ASCII. *)
Definition py (s : string) : str :=
  List.map N_of_ascii (list_ascii_of_string s).

(** A bytes literal [b"..."]. *)
Definition pyb (s : string) : bytes := list_byte_of_string s.

(** [str(n)] and the [{n}] of an f-string, for an [int]. *)
Definition str_of_int (n : Z) : str :=
  py (NilZero.string_of_int (Z.to_int n)).

(** [sep.join(parts)] *)
Fixpoint join (sep : str) (parts : list str) : str :=
  match parts with
  | [] => []
  | [p] => p
  | p :: rest => p ++ sep ++ join sep rest
  end.

Definition between (lo hi c : N) : bool := (lo <=? c)%N && (c <=? hi)%N.

(** [bytes.decode('ascii', errors='ignore')]: bytes above 0x7f are
    dropped, the others are their own code points. *)
Definition decode_ascii_ignore (b : bytes) : str :=
  List.map Byte.to_N (List.filter (fun x => (Byte.to_N x <? 128)%N) b).

Definition is_cont (b : N) : bool := between 128 191 b.

(** The six payload bits of a continuation byte. *)
Definition cont (b : N) : N := N.land b 63.

(** [bytes.decode()]: strict UTF-8.  [None] is [UnicodeDecodeError]:
    a stray or missing continuation byte, an overlong form, a surrogate
    or a code point above U+10FFFF. *)
Fixpoint decode_utf8_N (b : list N) : option str :=
  match b with
  | [] => Some []
  | b0 :: r0 =>
    if (b0 <? 128)%N then option_map (cons b0) (decode_utf8_N r0)
    else if between 194 223 b0 then
      match r0 with
      | b1 :: r1 =>
        if is_cont b1
        then option_map (cons (N.shiftl (N.land b0 31) 6 + cont b1)%N)
                        (decode_utf8_N r1)
        else None
      | _ => None
      end
    else if between 224 239 b0 then
      match r0 with
      | b1 :: b2 :: r2 =>
        let lo := if (b0 =? 224)%N then 160%N else 128%N in
        let hi := if (b0 =? 237)%N then 159%N else 191%N in
        if between lo hi b1 && is_cont b2
        then option_map
               (cons (N.shiftl (N.land b0 15) 12
                      + N.shiftl (cont b1) 6 + cont b2)%N)
               (decode_utf8_N r2)
        else None
      | _ => None
      end
    else if between 240 244 b0 then
      match r0 with
      | b1 :: b2 :: b3 :: r3 =>
        let lo := if (b0 =? 240)%N then 144%N else 128%N in
        let hi := if (b0 =? 244)%N then 143%N else 191%N in
        if between lo hi b1 && is_cont b2 && is_cont b3
        then option_map
               (cons (N.shiftl (N.land b0 7) 18 + N.shiftl (cont b1) 12
                      + N.shiftl (cont b2) 6 + cont b3)%N)
               (decode_utf8_N r3)
        else None
      | _ => None
      end
    else None
  end.

Definition decode_utf8 (b : bytes) : option str :=
  decode_utf8_N (List.map Byte.to_N b).

(** [str.isspace] on one character, the set [str.rstrip()] strips. *)
Definition isspace (c : N) : bool :=
  between 9 13 c || between 28 32 c || (c =? 133)%N || (c =? 160)%N
  || (c =? 5760)%N || between 8192 8202 c || (c =? 8232)%N
  || (c =? 8233)%N || (c =? 8239)%N || (c =? 8287)%N || (c =? 12288)%N.

(** [s.rstrip()] *)
Fixpoint rstrip (s : str) : str :=
  match s with
  | [] => []
  | c :: rest =>
    match rstrip rest with
    | [] => if isspace c then [] else [c]
    | kept => c :: kept
    end
  end.

(** The line boundaries of [str.splitlines]: LF, CR, VT, FF, FS, GS, RS,
    NEL, LS and PS (CR LF counts once). *)
Definition is_linebreak (c : N) : bool :=
  between 10 13 c || between 28 30 c || (c =? 133)%N
  || (c =? 8232)%N || (c =? 8233)%N.

(** The scanner of [splitlines]: [after_cr] tells that the character
    before was a CR that closed a line, so that an LF right after it
    belongs to the same boundary; [cur] is the line being read. *)
Fixpoint splitlines_from (after_cr : bool) (cur : str) (s : str)
  : list str :=
  match s with
  | [] => match cur with [] => [] | _ => [cur] end
  | c :: rest =>
    if after_cr && (c =? 10)%N then splitlines_from false cur rest
    else if is_linebreak c
         then cur :: splitlines_from (c =? 13)%N [] rest
         else splitlines_from false (cur ++ [c]) rest
  end.

(** [s.splitlines()] *)
Definition splitlines (s : str) : list str := splitlines_from false [] s.

(** [posixpath.join(a, b)] *)
Definition path_join (a b : str) : str :=
  match b with
  | 47%N :: _ => b
  | _ =>
    match a with
    | [] => b
    | _ => if (List.last a 0 =? 47)%N then a ++ b else a ++ 47%N :: b
    end
  end.

(** [s.lstrip('/')] *)
Fixpoint lstrip_sep (s : str) : str :=
  match s with
  | 47%N :: rest => lstrip_sep rest
  | _ => s
  end.

(** [s.rstrip('/')] *)
Definition rstrip_sep (s : str) : str := rev (lstrip_sep (rev s)).

(** [s.strip(os.sep)] *)
Definition strip_sep (s : str) : str := rstrip_sep (lstrip_sep s).

(** Splits at the last '/': [(p[:i], p[i:])] for [i = p.rfind('/') + 1]. *)
Fixpoint split_last_sep (p : str) : str * str :=
  match p with
  | [] => ([], [])
  | c :: rest =>
    let '(h, t) := split_last_sep rest in
    if (c =? 47)%N
    then match h with
         | [] => ([c], rest)
         | _ => (c :: h, t)
         end
    else match h with
         | [] => ([], c :: t)
         | _ => (c :: h, t)
         end
  end.

(** [posixpath.basename] *)
Definition basename (p : str) : str := snd (split_last_sep p).

(** [posixpath.dirname]: the head, without its trailing slashes unless it
    is made of slashes only. *)
Definition dirname (p : str) : str :=
  let head := fst (split_last_sep p) in
  match lstrip_sep head with
  | [] => head
  | _ => rstrip_sep head
  end.

End Text.

Import Text.

(* ================================================================== *)
(** ** agent/source/status.py *)

Module StatusModel.

Inductive Status := WAIT | PENDING | DONE.

Inductive FinalStatus := SUCCESS | ERROR | CANCELLED | NO_UPDATES.

(** The values of the two enums. *)
Definition Status_value (s : Status) : str :=
  match s with
  | WAIT => py "wait"
  | PENDING => py "pending"
  | DONE => py "done"
  end.

Definition FinalStatus_value (f : FinalStatus) : str :=
  match f with
  | SUCCESS => py "success"
  | ERROR => py "error"
  | CANCELLED => py "cancelled"
  | NO_UPDATES => py "no updates"
  end.

Section StatusInfo.

(** The type of Python floats, see [PyFloat] below. *)
Variable float : Type.

(** The [info] field: [None], a percentage or a final status. *)
Inductive Info :=
| info_none
| info_percent (percent : float)
| info_final (final : FinalStatus).

Record StatusInfo := mkStatusInfo {
  qname : str;
  status : Status;
  info : Info;
}.

(** The static constructors; [qube] stands for [qube.name]. *)
Definition wait (qube : str) : StatusInfo :=
  mkStatusInfo qube WAIT info_none.

Definition pending (qube : str) (percent : float) : StatusInfo :=
  mkStatusInfo qube PENDING (info_percent percent).

Definition done (qube : str) (final : FinalStatus) : StatusInfo :=
  mkStatusInfo qube DONE (info_final final).

End StatusInfo.

Arguments info_none {float}.
Arguments info_final {float} final.
Arguments wait {float} qube.
Arguments pending {float} qube percent.
Arguments done {float} qube final.

Definition FinalStatus_eqb (a b : FinalStatus) : bool :=
  match a, b with
  | SUCCESS, SUCCESS | ERROR, ERROR
  | CANCELLED, CANCELLED | NO_UPDATES, NO_UPDATES => true
  | _, _ => false
  end.

(** Is the event [Done] with the final status [f]? *)
Definition is_done_with {float} (f : FinalStatus) (e : StatusInfo float)
  : bool :=
  match status e, info e with
  | DONE, info_final g => FinalStatus_eqb f g
  | _, _ => false
  end.

End StatusModel.

Import StatusModel.

(* ================================================================== *)
(** ** What the module imports and the qube it talks to *)

(** Python's [float]: the builtin conversion of a [str] ([None] is
    [ValueError]) and the test [progress == 100.]. *)
Record PyFloat := {
  float : Type;
  float_of_str : str -> option float;
  float_eq_100 : float -> bool;
}.

(** [subprocess.CalledProcessError]; [err_str] is [str(err)]. *)
Record CalledProcessError := {
  returncode : Z;
  output : bytes;
  err_str : str;
}.

(** The process [run_service] returns, once it has run: what the
    successive [readline] calls on its two pipes give (after the last one,
    [readline] gives [b'']) and its return code. *)
Record Process := {
  stderr : list bytes;
  stdout : list bytes;
  proc_returncode : Z;
}.

(** What happens in the [try] block of [_copy_file_from_dom0]: [open] or
    [Popen] raises an [OSError] with this [str], or the process exits. *)
Inductive CopyOutcome :=
| os_error (msg : str)
| exited (ret_code : Z).

(** What a call to dom0's operating system does ([tempfile.mkdtemp],
    [shutil.make_archive]): it returns, or it raises an exception with
    this [str], an [OSError] as a rule ([FileNotFoundError] when the
    directory to archive does not exist). *)
Inductive OsAnswer (A : Type) :=
| os_returns (a : A)
| os_raises (msg : str).

Arguments os_raises {A} msg.

(** The qube ([qubesadmin]'s vm object) and dom0's operating system, as
    transitions of a world [W]. *)
Record Substrate (W : Type) := {
  is_running : W -> bool;
  shutdown : W -> W;
  run_with_args : list str -> W -> (CalledProcessError + bytes * bytes) * W;
  run_service : str -> W -> Process * W;
  popen_stdin : list str -> str -> W -> CopyOutcome * W;
  mkdtemp : W -> OsAnswer str * W;
  make_archive : str -> str -> str -> W -> OsAnswer unit * W;
}.

(** Names imported from modules that are not part of this file:
    [AgentArgs.to_cli_args], [LOGPATH], [LOG_FILE] and
    [qubesadmin.utils.encode_for_vmexec]. *)
Record Imports := {
  AgentArgs : Type;
  to_cli_args : AgentArgs -> list str;
  LOGPATH : str;
  LOG_FILE : str;
  encode_for_vmexec : list str -> str;
}.

(** The arguments of [QubeConnection.__init__] that never change
    ([qube_name] is [qube.name]; the logger and the notifier are the two
    sinks of [Call] below). *)
Record Config := {
  qube_name : str;
  dest_dir : str;
  cleanup : bool;
  show_progress : bool;
}.

(** The calls a connection makes to its collaborators, in order:
    [status_notifier.put], the three levels of the logger,
    [qube.run_with_args] with the words of the command, [qube.run_service],
    [qube.shutdown()], [tempfile.mkdtemp()], [shutil.make_archive] and,
    for [os_popen], the [try] block of [_copy_file_from_dom0] ([open] of
    the archive and [Popen] of the command on it). *)
Inductive Call (float : Type) :=
| notifier_put (event : StatusInfo float)
| logger_debug (msg : str)
| logger_info (msg : str)
| logger_error (msg : str)
| qube_run_with_args (command : list str)
| qube_run_service (service : str)
| qube_shutdown
| os_mkdtemp
| os_make_archive (base_name root_dir base_dir : str)
| os_popen (command : list str) (stdin : str).

Arguments logger_debug {float} msg.
Arguments logger_info {float} msg.
Arguments logger_error {float} msg.
Arguments qube_run_with_args {float} command.
Arguments qube_run_service {float} service.
Arguments qube_shutdown {float}.
Arguments os_mkdtemp {float}.
Arguments os_make_archive {float} base_name root_dir base_dir.
Arguments os_popen {float} command stdin.

(** The events put on the status notifier, in order. *)
Fixpoint events {float} (calls : list (Call float))
  : list (StatusInfo float) :=
  match calls with
  | [] => []
  | notifier_put e :: rest => e :: events rest
  | _ :: rest => events rest
  end.

(** The commands sent to the qube with [run_with_args]. *)
Fixpoint commands {float} (calls : list (Call float)) : list (list str) :=
  match calls with
  | [] => []
  | qube_run_with_args c :: rest => c :: commands rest
  | _ :: rest => commands rest
  end.

(** Exceptions that leave a method; [OtherError] stands for the ones
    the connection does not raise itself, with their [str]. *)
Inductive Exn :=
| AssertionError
| UnicodeDecodeError
| OtherError (what : str).

Inductive Outcome (A : Type) :=
| Return (a : A)
| Raise (e : Exn).

Arguments Raise {A} e.

(* ================================================================== *)
(** ** qube_connection.py *)

Module QubeConnection.

(** All that a connection is built from: the qube handle and dom0 behind
    it, the imported names, Python's [float] and the constructor's
    arguments. *)
Record Env := {
  fl : PyFloat;
  world_type : Type;
  qube : Substrate world_type;
  imports : Imports;
  self : Config;
}.

Section Methods.

Variable env : Env.


(** The mutable part of a connection: the three fields the methods
    assign, the world behind the qube handle, and the calls made so far. *)
Record State := mkState {
  world : world_type env;
  status_notified : bool;
  _initially_running : option bool;
  __connected : bool;
  calls : list (Call (float (fl env)));
}.

(** [QubeConnection.__init__] *)
Definition __init__ (w : world_type env) : State :=
  mkState w false None false [].

(** A method body: it reads and updates the state, and returns or
    raises; what it did before raising stays done. *)
Definition M (A : Type) : Type := State -> Outcome A * State.

Definition ret {A} (a : A) : M A := fun st => (Return a, st).

Definition raise {A} (e : Exn) : M A := fun st => (Raise e, st).

Definition bind {A B} (m : M A) (k : A -> M B) : M B :=
  fun st =>
    match m st with
    | (Return a, st') => k a st'
    | (Raise e, st') => (Raise e, st')
    end.

Notation "x <- m ;; k" := (bind m (fun x => k))
  (at level 61, m at next level, right associativity).
Notation "' p <- m ;; k" := (bind m (fun x => let 'p := x in k))
  (at level 61, p pattern, m at next level, right associativity).
Notation "m ;; k" := (bind m (fun _ => k))
  (at level 61, right associativity).

(** Records a call to a collaborator. *)
Definition emit (c : Call (float (fl env))) : M unit :=
  fun st => (Return tt,
             mkState (world st) (status_notified st) (_initially_running st)
                     (__connected st) (calls st ++ [c])).

(** Lets the world make a step and gives back what it answers. *)
Definition ask {A} (step : world_type env -> A * world_type env) : M A :=
  fun st =>
    let '(a, w) := step (world st) in
    (Return a,
     mkState w (status_notified st) (_initially_running st)
             (__connected st) (calls st)).

(** Lets dom0's operating system make a step: its answer is returned,
    or its exception raised. *)
Definition attempt {A} (step : world_type env -> OsAnswer A * world_type env)
  : M A :=
  fun st =>
    let '(answer, w) := step (world st) in
    (match answer with
     | os_returns a => Return a
     | os_raises msg => Raise (OtherError msg)
     end,
     mkState w (status_notified st) (_initially_running st)
             (__connected st) (calls st)).

Definition set_status_notified (b : bool) : M unit :=
  fun st => (Return tt,
             mkState (world st) b (_initially_running st)
                     (__connected st) (calls st)).

Definition set_initially_running (b : bool) : M unit :=
  fun st => (Return tt,
             mkState (world st) (status_notified st) (Some b)
                     (__connected st) (calls st)).

Definition set_connected (b : bool) : M unit :=
  fun st => (Return tt,
             mkState (world st) (status_notified st) (_initially_running st)
                     b (calls st)).

Definition read {A} (f : State -> A) : M A := fun st => (Return (f st), st).

(** [assert cond] *)
Definition assert (cond : bool) : M unit :=
  if cond then ret tt else raise AssertionError.

(** Truth value of an [int]. *)
Definition truthy (n : Z) : bool := negb (n =? 0)%Z.

(** Truth value of [None], [True] or [False]. *)
Definition truthy_opt (b : option bool) : bool :=
  match b with
  | Some true => true
  | _ => false
  end.

(** What [lst += s] appends to a list when [s] is a [str]: [s] is
    iterated, one element per character. *)
Definition chars (s : str) : list str := List.map (fun c => [c]) s.

(** [_string_sanitization] *)
Definition _string_sanitization (line : str) : str :=
  List.filter (fun c => (32 <=? c)%N && (c <=? 126)%N) line.

(** [_collect_output] *)
Definition _collect_output (untrusted_stdout untrusted_stderr : bytes)
  : list str :=
  let untrusted_stdout :=
    decode_ascii_ignore untrusted_stdout
    ++ decode_ascii_ignore untrusted_stderr in
  let stdout_lines :=
    List.map _string_sanitization (splitlines untrusted_stdout) in
  stdout_lines.

(** [_collect_stdout]: lines are appended until [readline] gives [b'']. *)
Fixpoint _collect_stdout_loop (lines : list bytes) (stdout : bytes) : bytes :=
  match lines with
  | [] => stdout
  | untrusted_line :: rest =>
    match untrusted_line with
    | _ :: _ => _collect_stdout_loop rest (stdout ++ untrusted_line)
    | [] => stdout
    end
  end.

Definition _collect_stdout (proc : Process) : bytes :=
  _collect_stdout_loop (stdout proc) [].

(** The loop of [_collect_stderr], from the lines still to read, the
    buffer [stderr] and the flag [progress_finished]. *)
Fixpoint _collect_stderr_loop (lines : list bytes) (stderr : bytes)
         (progress_finished : bool) : M bytes :=
  match lines with
  | [] => ret stderr
  | untrusted_line :: rest =>
    match untrusted_line with
    | _ :: _ =>
      if negb progress_finished then
        match decode_utf8 untrusted_line with
        | None => raise UnicodeDecodeError
        | Some decoded =>
          let line := _string_sanitization (rstrip decoded) in
          match float_of_str (fl env) line with
          | None =>
            _collect_stderr_loop rest (stderr ++ untrusted_line)
                                 progress_finished
          | Some progress =>
            let progress_finished :=
              if float_eq_100 (fl env) progress then true
              else progress_finished in
            emit (notifier_put (pending (qube_name (self env)) progress)) ;;
            _collect_stderr_loop rest stderr progress_finished
          end
        end
      else
        _collect_stderr_loop rest (stderr ++ untrusted_line)
                             progress_finished
    | [] => ret stderr
    end
  end.

Definition _collect_stderr (proc : Process) : M bytes :=
  _collect_stderr_loop (stderr proc) [] false.

(** [_run_command_and_wait_for_output] *)
Definition _run_command_and_wait_for_output (command : list str)
  : M (Z * (bytes * bytes)) :=
  emit (qube_run_with_args command) ;;
  answer <- ask (run_with_args (qube env) command) ;;
  match answer with
  | inr untrusted_stdout_and_stderr =>
    ret (0%Z, untrusted_stdout_and_stderr)
  | inl err =>
    ret_code <-
      (if (returncode err =? 100)%Z then
         emit (notifier_put (done (qube_name (self env)) NO_UPDATES)) ;;
         set_status_notified true ;;
         ret 0%Z
       else
         emit (logger_error (err_str err)) ;;
         ret (returncode err)) ;;
    ret (ret_code, (output err, output err))
  end.

(** The service the streaming strategy asks for. *)
Definition service_name (command : list str) : str :=
  py "qubes.VMExec+" ++ encode_for_vmexec (imports env) command.

(** [_run_command_and_actively_report_progress] *)
Definition _run_command_and_actively_report_progress (command : list str)
  : M (Z * (bytes * bytes)) :=
  let service := service_name command in
  emit (qube_run_service service) ;;
  proc <- ask (run_service (qube env) service) ;;
  stderr <- _collect_stderr proc ;;
  let stdout := _collect_stdout proc in
  let untrusted_stdout_and_stderr := (stdout, stderr) in
  let ret_code := proc_returncode proc in
  ret_code <-
    (if (ret_code =? 100)%Z then
       emit (notifier_put (done (qube_name (self env)) NO_UPDATES)) ;;
       set_status_notified true ;;
       ret 0%Z
     else ret ret_code) ;;
  ret (ret_code, untrusted_stdout_and_stderr).

(** [_run_shell_command_in_qube]; the target is always [self.qube]. *)
Definition _run_shell_command_in_qube (command : list str) (show : bool)
  : M (Z * list str) :=
  emit (logger_debug (py "run command in " ++ qube_name (self env) ++ py ": "
                      ++ join (py " ") command)) ;;
  '(ret_code, untrusted_stdout_and_stderr) <-
    (if negb show
     then _run_command_and_wait_for_output command
     else _run_command_and_actively_report_progress command) ;;
  ret (ret_code,
       _collect_output (fst untrusted_stdout_and_stderr)
                       (snd untrusted_stdout_and_stderr)).

(** [_copy_file_from_dom0] *)
Definition _copy_file_from_dom0 (src dest : str) : M (Z * str) :=
  let qvm_run :=
    [py "qvm-run"; py "--user=root"; py "--pass-io"; qube_name (self env)] in
  let write_dest := [py "cat"; py ">"; dest] in
  let command := qvm_run ++ [join (py " ") write_dest] in
  emit (logger_debug (py "run command: " ++ join (py " ") command
                      ++ py " < " ++ src)) ;;
  emit (os_popen command src) ;;
  tried <- ask (popen_stdin (qube env) command src) ;;
  let raised :=
    match tried with
    | os_error msg => Some msg
    | exited ret_code =>
      if truthy ret_code
      then Some (py "Command returns code: " ++ str_of_int ret_code)
      else None
    end in
  match raised with
  | None => ret (0%Z, [])
  | Some exc => ret (1%Z, exc)
  end.

(** [transfer_agent], up to [shutil.make_archive]: the assertion, the
    archive of [src_dir] in a fresh directory of dom0, and the two paths
    [(src_arch, dest_arch)] the rest of the method uses.  An exception
    of [tempfile.mkdtemp] or of [shutil.make_archive] is not caught: it
    leaves the method. *)
Definition archive_agent (src_dir : str) : M (str * str) :=
  connected <- read __connected ;;
  assert connected ;;
  let arch_format := py ".tar.gz" in
  emit os_mkdtemp ;;
  arch_dir <- attempt (mkdtemp (qube env)) ;;
  let root_dir := dirname src_dir in
  let base_dir := basename (strip_sep src_dir) in
  let src_arch := path_join arch_dir (base_dir ++ arch_format) in
  let dest_arch :=
    path_join (dest_dir (self env)) (base_dir ++ arch_format) in
  emit (os_make_archive (path_join arch_dir base_dir) root_dir base_dir) ;;
  attempt (make_archive (qube env) (path_join arch_dir base_dir)
                        root_dir base_dir) ;;
  ret (src_arch, dest_arch).

(** The three commands of [transfer_agent] and its own words. *)
Definition mkdir_command : list str :=
  [py "mkdir"; py "-p"; dest_dir (self env)].

Definition tar_command (dest_arch : str) : list str :=
  [py "tar"; py "-xzf"; dest_arch; py "-C"; dest_dir (self env)].

(** [transfer_agent] *)
Definition transfer_agent (src_dir : str) : M (Z * list str) :=
  '(src_arch, dest_arch) <- archive_agent src_dir ;;
  let command := mkdir_command in
  '(exit_code, output) <- _run_shell_command_in_qube command false ;;
  if truthy exit_code then ret (exit_code, output) else
  '(exit_code_, output_) <- _copy_file_from_dom0 src_arch dest_arch ;;
  let exit_code := Z.max exit_code exit_code_ in
  let output := output ++ chars output_ in
  if truthy exit_code then ret (exit_code, output) else
  let command := tar_command dest_arch in
  '(exit_code_, output_) <- _run_shell_command_in_qube command false ;;
  let exit_code := Z.max exit_code exit_code_ in
  let output := output ++ output_ in
  ret (exit_code, output).

(** The two commands of [run_entrypoint]. *)
Definition chmod_command (entrypoint_path : str) : list str :=
  [py "chmod"; py "u+x"; entrypoint_path].

Definition entrypoint_command (entrypoint_path : str)
           (agent_args : AgentArgs (imports env)) : list str :=
  entrypoint_path :: to_cli_args (imports env) agent_args.

(** [run_entrypoint] *)
Definition run_entrypoint (entrypoint_path : str)
           (agent_args : AgentArgs (imports env)) : M (Z * list str) :=
  (* make sure entrypoint is executable *)
  let command := chmod_command entrypoint_path in
  '(exit_code, output) <- _run_shell_command_in_qube command false ;;
  (* run entrypoint *)
  let command := entrypoint_command entrypoint_path agent_args in
  '(exit_code_, output_) <-
    _run_shell_command_in_qube command (show_progress (self env)) ;;
  let exit_code := Z.max exit_code exit_code_ in
  let output := output ++ output_ in
  ret (exit_code, output).

Definition cat_command : list str :=
  [py "cat"; path_join (LOGPATH (imports env)) (LOG_FILE (imports env))].

(** [read_logs] *)
Definition read_logs : M (Z * list str) :=
  let command := cat_command in
  '(exit_code, output) <- _run_shell_command_in_qube command false ;;
  ret (exit_code, output).

(** [__enter__] *)
Definition __enter__ : M unit :=
  running <- read (fun st => is_running (qube env) (world st)) ;;
  set_initially_running running ;;
  set_connected true.

Definition rm_command : list str := [py "rm"; py "-r"; dest_dir (self env)].

(** [__exit__] *)
Definition __exit__ : M unit :=
  notified <- read status_notified ;;
  (if negb notified
   then emit (notifier_put (done (qube_name (self env)) SUCCESS))
   else ret tt) ;;
  (if cleanup (self env)
   then emit (logger_info (py "Remove " ++ dest_dir (self env))) ;;
        _run_shell_command_in_qube rm_command false ;;
        ret tt
   else ret tt) ;;
  running <- read (fun st => is_running (qube env) (world st)) ;;
  initially_running <- read _initially_running ;;
  (if running && negb (truthy_opt initially_running)
   then emit (logger_info (py "Shutdown " ++ qube_name (self env))) ;;
        emit qube_shutdown ;;
        ask (fun w => (tt, shutdown (qube env) w))
   else ret tt) ;;
  set_connected false.

(** [with connection: body]: [__enter__], the body, then [__exit__]
    whether the body returned or raised; [__exit__] returns [None], so
    an exception of the body goes on to the caller. *)
Definition with_connection {A} (body : M A) : M A :=
  __enter__ ;;
  fun st =>
    let '(result, st') := body st in
    match __exit__ st' with
    | (Return _, st'') => (result, st'')
    | (Raise e, st'') => (Raise e, st'')
    end.

End Methods.

(** The connection is always named, as [self] is in the source. *)
Arguments _collect_stderr_loop : clear implicits.
Arguments _collect_stderr : clear implicits.
Arguments _run_command_and_wait_for_output : clear implicits.
Arguments _run_command_and_actively_report_progress : clear implicits.
Arguments _run_shell_command_in_qube : clear implicits.
Arguments _copy_file_from_dom0 : clear implicits.
Arguments archive_agent : clear implicits.
Arguments service_name : clear implicits.
Arguments mkdir_command : clear implicits.
Arguments tar_command : clear implicits.
Arguments entrypoint_command : clear implicits.
Arguments cat_command : clear implicits.
Arguments rm_command : clear implicits.
Arguments transfer_agent : clear implicits.
Arguments run_entrypoint : clear implicits.
Arguments read_logs : clear implicits.
Arguments __enter__ : clear implicits.
Arguments __exit__ : clear implicits.
Arguments with_connection env {A} body _.

End QubeConnection.

Import QubeConnection.

(* ================================================================== *)
(** ** The results of steps and their combination, in the words of the
       specification *)

(** A command result: an exit code and the lines of output. *)
Definition CommandResult : Type := Z * list str.

(** [combine]: the largest code, the lines of the first result and then
    the lines of the second. *)
Definition combine (a b : CommandResult) : CommandResult :=
  (Z.max (fst a) (fst b), snd a ++ snd b).

(** The reading of the diagnostic channel, in the words of the
    specification: a two-state classifier over the lines.  While
    classifying, a line whose text (decoded, stripped and sanitized)
    parses as a float is a progress value, forwarded and not buffered,
    and the value 100.0 latches; any other line, a line that cannot be
    decoded included, goes to the buffer.  Once latched, every line goes
    to the buffer as it is.  The result is the progress values to forward
    and the buffer. *)
Inductive Latch := Classifying | DiagnosticsOnly.

Fixpoint classify (FL : PyFloat) (latch : Latch) (lines : list bytes)
  : list (float FL) * bytes :=
  match lines with
  | [] => ([], [])
  | l :: rest =>
    match latch with
    | DiagnosticsOnly =>
      let '(ps, buf) := classify FL DiagnosticsOnly rest in (ps, l ++ buf)
    | Classifying =>
      match option_map (fun d => _string_sanitization (rstrip d))
                       (decode_utf8 l) with
      | Some text =>
        match float_of_str FL text with
        | Some p =>
          let '(ps, buf) :=
            classify FL (if float_eq_100 FL p then DiagnosticsOnly
                         else Classifying) rest in
          (p :: ps, buf)
        | None =>
          let '(ps, buf) := classify FL Classifying rest in (ps, l ++ buf)
        end
      | None =>
        let '(ps, buf) := classify FL Classifying rest in (ps, l ++ buf)
      end
    end
  end.

(* ================================================================== *)
(** ** Notions used in the statements *)

(** The code points the sanitizer keeps: 0x20 to 0x7e. *)
Definition printable (c : N) : Prop := (32 <= c <= 126)%N.

(** The lines of a payload collected on its own. *)
Definition payload_lines (payload : bytes) : list str :=
  List.map _string_sanitization (splitlines (decode_ascii_ignore payload)).

(** The text ends with a line boundary that an LF at its own start does
    not extend: put after itself, its lines stay apart. *)
Definition closes_lines (text : str) : bool :=
  match text with
  | [] => true
  | first :: _ =>
    is_linebreak (List.last text 0%N)
    && negb ((List.last text 0 =? 13)%N && (first =? 10)%N)
  end.

(** How many events are [Done] with the final status [f]. *)
Definition count_done {float} (f : FinalStatus)
           (evs : list (StatusInfo float)) : nat :=
  List.length (List.filter (is_done_with f) evs).

(** Is the call the copy of the archive ([Popen] in dom0)? *)
Definition is_popen {float} (c : Call float) : bool :=
  match c with
  | os_popen _ _ => true
  | _ => false
  end.

(** Is the call a shutdown of the qube? *)
Definition is_shutdown {float} (c : Call float) : bool :=
  match c with
  | qube_shutdown => true
  | _ => false
  end.

(** The state [st] after a step that left the world in [w] and the flag
    [status_notified] at [notified], and made the calls [added]. *)
Definition advance {env} (st : State env) (w : world_type env)
           (notified : bool) (added : list (Call (float (fl env))))
  : State env :=
  mkState env w notified (_initially_running st) (__connected st)
          (calls st ++ added).

(** The debug line [_run_shell_command_in_qube] logs first. *)
Definition run_command_log (env : Env) (command : list str)
  : Call (float (fl env)) :=
  logger_debug (py "run command in " ++ qube_name (self env) ++ py ": "
                ++ join (py " ") command).

(** The code a runner reports for the code of the substrate. *)
Definition reported (code : Z) : Z := if (code =? 100)%Z then 0%Z else code.

(** The progress events for a list of values. *)
Definition pending_puts (env : Env) (values : list (float (fl env)))
  : list (Call (float (fl env))) :=
  List.map (fun p => notifier_put (pending (qube_name (self env)) p)) values.

(** The flag [progress_finished] for a state of the classifier. *)
Definition latched (latch : Latch) : bool :=
  match latch with
  | DiagnosticsOnly => true
  | Classifying => false
  end.

(** The exit code the substrate gives for a command sent from the world
    [w]: the return code of the process (streaming), the code of the
    error or 0 (wait). *)
Definition substrate_code (env : Env) (command : list str) (show : bool)
           (w : world_type env) : Z :=
  if show
  then proc_returncode
         (fst (run_service (qube env) (service_name env command) w))
  else match fst (run_with_args (qube env) command w) with
       | inl err => returncode err
       | inr _ => 0%Z
       end.

(** What the wait strategy calls once the qube has answered. *)
Definition wait_tail (env : Env) (command : list str) (w : world_type env)
  : list (Call (float (fl env))) :=
  match fst (run_with_args (qube env) command w) with
  | inr _ => []
  | inl err =>
    if (returncode err =? 100)%Z
    then [notifier_put (done (qube_name (self env)) NO_UPDATES)]
    else [logger_error (err_str err)]
  end.

(** The three parts of the teardown, as calls: the default final status,
    from the flag [notified]; the removal of the directory, from the
    world [w] it starts in; the shutdown, from the world the removal
    left and the running state recorded at entry. *)
Definition final_status_calls (env : Env) (notified : bool)
  : list (Call (float (fl env))) :=
  if notified then []
  else [notifier_put (done (qube_name (self env)) SUCCESS)].

Definition cleanup_calls (env : Env) (w : world_type env)
  : list (Call (float (fl env))) :=
  if cleanup (self env)
  then [logger_info (py "Remove " ++ dest_dir (self env));
        run_command_log env (rm_command env);
        qube_run_with_args (rm_command env)]
       ++ wait_tail env (rm_command env) w
  else [].

Definition world_after_cleanup (env : Env) (w : world_type env)
  : world_type env :=
  if cleanup (self env)
  then snd (run_with_args (qube env) (rm_command env) w)
  else w.

Definition shuts_down (env : Env) (w : world_type env)
           (initially_running : option bool) : bool :=
  is_running (qube env) (world_after_cleanup env w)
  && negb (truthy_opt initially_running).

Definition shutdown_calls (env : Env) (w : world_type env)
           (initially_running : option bool)
  : list (Call (float (fl env))) :=
  if shuts_down env w initially_running
  then [logger_info (py "Shutdown " ++ qube_name (self env)); qube_shutdown]
  else [].

(** The state in which [__exit__] leaves a connection it found in
    [st]. *)
Definition torn_down {env} (st : State env) : State env :=
  let w := world_after_cleanup env (world st) in
  mkState env
          (if shuts_down env (world st) (_initially_running st)
           then shutdown (qube env) w else w)
          (if cleanup (self env)
              && (substrate_code env (rm_command env) false (world st)
                  =? 100)%Z
           then true else status_notified st)
          (_initially_running st)
          false
          (calls st
           ++ final_status_calls env (status_notified st)
           ++ cleanup_calls env (world st)
           ++ shutdown_calls env (world st) (_initially_running st)).

(** A body that uses the connection through its methods: it may change
    the world and the flag [status_notified] and make calls, and leaves
    the rest of the state as it is. *)
Definition advances {env A} (body : M env A) : Prop :=
  forall st, exists w notified added,
      snd (body st) = advance st w notified added.

(** What the reading loops see of a pipe: the lines before the first
    empty one ([readline] gives [b''] at the end of the stream, and the
    loops stop there). *)
Fixpoint until_eof (lines : list bytes) : list bytes :=
  match lines with
  | [] => []
  | [] :: _ => []
  | line :: rest => line :: until_eof rest
  end.

(** The text [a] is empty, or ends with a line boundary that an LF at
    the start of [b] does not extend: the lines of [a ++ b] are those of
    [a] and then those of [b]. *)
Definition closes_before (a b : str) : bool :=
  match a with
  | [] => true
  | _ :: _ =>
    is_linebreak (List.last a 0%N)
    && negb ((List.last a 0 =? 13)%N && (List.hd 0%N b =? 10)%N)
  end.

(** The command [_copy_file_from_dom0] starts in dom0, its input the
    archive: [qvm-run --user=root --pass-io <qube> "cat > <dest>"]. *)
Definition copy_command (env : Env) (dest : str) : list str :=
  [py "qvm-run"; py "--user=root"; py "--pass-io"; qube_name (self env);
   py "cat > " ++ dest].

(** A character of a path that is not the separator. *)
Definition not_sep (c : N) : Prop := c <> 47%N.

(** A body that treats the connection as its three methods do.  It does
    not shut the qube down and puts no Done/Success event; it sets the
    flag [status_notified] exactly when it puts a Done/NoUpdates event
    and never clears it; it leaves the rest of the state as it is. *)
Definition method_like {env A} (body : M env A) : Prop :=
  forall st, exists w added,
      snd (body st)
      = advance st w
                (status_notified st
                 || negb (count_done NO_UPDATES (events added) =? 0)%nat)
                added
      /\ existsb is_shutdown added = false
      /\ count_done SUCCESS (events added) = 0%nat.

(** A call that is not a status event, or a status event of the three
    kinds the connection makes: Pending with a percentage, Done/Success
    and Done/NoUpdates. *)
Definition progress_or_outcome {float} (c : Call float) : bool :=
  match c with
  | notifier_put e =>
    match status e, info e with
    | PENDING, info_percent _ => true
    | DONE, info_final SUCCESS => true
    | DONE, info_final NO_UPDATES => true
    | _, _ => false
    end
  | _ => true
  end.

(** A body all of whose calls are [allowed], and that leaves the
    recorded running state and the open state of the connection as they
    are. *)
Definition only_calls {env A} (allowed : Call (float (fl env)) -> bool)
           (body : M env A) : Prop :=
  forall st, exists w notified added,
      snd (body st) = advance st w notified added
      /\ forallb allowed added = true.

(** Can the diagnostic channel be read without a decoding error?  The
    lines read while classifying (before a value equal to 100, and before
    the end of the stream) are valid UTF-8; [finished] is the flag
    [progress_finished] the reading starts with. *)
Fixpoint stderr_decodes (FL : PyFloat) (finished : bool)
         (lines : list bytes) : bool :=
  match lines with
  | [] => true
  | [] :: _ => true
  | line :: rest =>
    if finished then true
    else
      match decode_utf8 line with
      | None => false
      | Some decoded =>
        match float_of_str FL (_string_sanitization (rstrip decoded)) with
        | None => stderr_decodes FL false rest
        | Some progress => stderr_decodes FL (float_eq_100 FL progress) rest
        end
      end
  end.

(** The separator [posixpath.join] puts between [a] and a relative
    path: none when [a] is empty or ends with a separator, one
    otherwise. *)
Definition join_sep (a : str) : str :=
  match a with
  | [] => []
  | _ :: _ => if (List.last a 0 =? 47)%N then [] else [47%N]
  end.

(* ================================================================== *)
(** ** Concrete collaborators, to run the methods on examples *)

Module Examples.

(** A fragment of Python's [float]: unsigned decimal literals
    [digits] or [digits.digits], kept exactly as [mantissa / 10^scale].
    Any other text is refused here (Python accepts more: signs,
    exponents, [inf], [nan]); the examples below stay inside the
    fragment. *)
Definition digit (c : N) : option N :=
  if between 48 57 c then Some (c - 48)%N else None.

Fixpoint read_digits (acc : N) (count : nat) (s : str) : N * nat * str :=
  match s with
  | [] => (acc, count, [])
  | c :: rest =>
    match digit c with
    | Some d => read_digits (10 * acc + d)%N (S count) rest
    | None => (acc, count, s)
    end
  end.

Definition decimal_of_str (s : str) : option (N * nat) :=
  match read_digits 0 0 s with
  | (_, O, _) => None
  | (whole, _, []) => Some (whole, O)
  | (whole, _, 46%N :: frac) =>
    match read_digits whole 0 frac with
    | (_, O, _) => None
    | (mantissa, scale, []) => Some (mantissa, scale)
    | _ => None
    end
  | _ => None
  end.

Definition decimal_eq_100 (x : N * nat) : bool :=
  (fst x =? 100 * 10 ^ N.of_nat (snd x))%N.

Definition decimals : PyFloat :=
  {| float := N * nat;
     float_of_str := decimal_of_str;
     float_eq_100 := decimal_eq_100 |}.

(** A qube whose world is whether it runs.  Running a command or a
    service in it starts it; what a command answers depends on the
    command alone. *)
Definition a_qube (answer : list str -> CalledProcessError + bytes * bytes)
           (proc : Process) (copy : CopyOutcome) : Substrate bool :=
  {| is_running := fun w => w;
     shutdown := fun _ => false;
     run_with_args := fun command _ => (answer command, true);
     run_service := fun _ _ => (proc, true);
     popen_stdin := fun _ _ _ => (copy, true);
     mkdtemp := fun w => (os_returns (py "/tmp/tmpvmupdate"), w);
     make_archive := fun _ _ _ w => (os_returns tt, w) |}.

Definition the_imports : Imports :=
  {| AgentArgs := list str;
     to_cli_args := fun args => args;
     LOGPATH := py "/var/log/qubes";
     LOG_FILE := py "update-agent.log";
     encode_for_vmexec := join (py "+") |}.

Definition work (cleanup show_progress : bool) : Config :=
  {| qube_name := py "work";
     dest_dir := py "/run/qubes-update";
     cleanup := cleanup;
     show_progress := show_progress |}.

(** The connection to [q] with the constructor's arguments [cfg]. *)
Definition connection (q : Substrate bool) (cfg : Config) : Env :=
  {| fl := decimals;
     world_type := bool;
     qube := q;
     imports := the_imports;
     self := cfg |}.

(** The state of a new connection once [__enter__] has run, the qube
    running or not. *)
Definition entered (env : Env) (running : world_type env) : State env :=
  snd (__enter__ env (__init__ env running)).

(** [CalledProcessError(code, ..., output=payload)] *)
Definition failed (code : Z) (payload : bytes) : CalledProcessError :=
  {| returncode := code;
     output := payload;
     err_str := py "Command returned non-zero exit status "
                ++ str_of_int code |}.

Definition idle : Process :=
  {| stderr := []; stdout := []; proc_returncode := 0 |}.

Definition LF : list byte := [x0a].

(** Every command succeeds and prints nothing. *)
Definition quiet (_ : list str) : CalledProcessError + bytes * bytes :=
  inr ([], []).

(** Every command exits with 100. *)
Definition always_100 (_ : list str) : CalledProcessError + bytes * bytes :=
  inl (failed 100 (pyb "nothing to do" ++ LF)).

(** Is [word] the first word of the command? *)
Definition starts_with (word : string) (command : list str) : bool :=
  match command with
  | first :: _ => if list_eq_dec N.eq_dec first (py word) then true else false
  | [] => false
  end.

(** The command [word] fails with [code] and prints [payload]; the other
    commands succeed and print [out]. *)
Definition fails_on (word : string) (code : Z) (payload out : bytes)
           (command : list str) : CalledProcessError + bytes * bytes :=
  if starts_with word command then inl (failed code payload)
  else inr (out, []).

(** The lines of the diagnostic channel in the specification's example. *)
Definition progress_lines : list bytes :=
  [pyb "12.5" ++ LF; pyb "50.0" ++ LF; pyb "building..." ++ LF;
   pyb "100.0" ++ LF; pyb "99.0" ++ LF; pyb "done" ++ LF].

Definition reporting (lines : list bytes) (code : Z) : Process :=
  {| stderr := lines; stdout := []; proc_returncode := code |}.

End Examples.

Import Examples.

Unset Implicit Arguments.

(* ================================================================== *)
(** ** The sanitizer *)

Lemma sanitization_app (a b : str) :
  _string_sanitization (a ++ b)
  = _string_sanitization a ++ _string_sanitization b.
Proof. apply filter_app. Qed.

Lemma sanitization_keeps (c : N) :
  printable c -> _string_sanitization [c] = [c].
Proof.
  intros [Hlo Hhi]. unfold _string_sanitization. simpl.
  apply N.leb_le in Hlo. apply N.leb_le in Hhi.
  now rewrite Hlo, Hhi.
Qed.

Lemma sanitization_drops (c : N) :
  ~ printable c -> _string_sanitization [c] = [].
Proof.
  intros Hc. unfold _string_sanitization. simpl.
  destruct (32 <=? c)%N eqn:Hlo; destruct (c <=? 126)%N eqn:Hhi;
    simpl; try reflexivity.
  exfalso. apply Hc. split; [now apply N.leb_le | now apply N.leb_le].
Qed.

(** C6.  Whatever the string, the sanitizer's result holds only code
    points from 0x20 to 0x7e; the other characters are dropped and the
    kept ones stay as they are, in their order (a character in the string
    contributes itself or nothing); and sanitizing twice is sanitizing
    once. *)
Theorem string_sanitization_printable_idempotent (s : str) :
  Forall printable (_string_sanitization s)
  /\ (forall a c b, s = a ++ c :: b ->
        (printable c ->
         _string_sanitization s
         = _string_sanitization a ++ c :: _string_sanitization b)
        /\ (~ printable c ->
            _string_sanitization s
            = _string_sanitization a ++ _string_sanitization b))
  /\ _string_sanitization (_string_sanitization s) = _string_sanitization s.
Proof.
  split; [| split].
  - apply Forall_forall. intros c Hc.
    apply filter_In in Hc. destruct Hc as [_ Hc].
    apply andb_true_iff in Hc. destruct Hc as [Hlo Hhi].
    split; [now apply N.leb_le | now apply N.leb_le].
  - intros a c b ->. change (c :: b) with ([c] ++ b).
    rewrite !sanitization_app. split; intros Hc.
    + now rewrite sanitization_keeps.
    + now rewrite sanitization_drops.
  - unfold _string_sanitization.
    induction s as [| c s IH]; simpl; [reflexivity |].
    destruct ((32 <=? c)%N && (c <=? 126)%N) eqn:Hc; simpl.
    + now rewrite Hc, IH.
    + exact IH.
Qed.

(** An escape character in front of a colour code is dropped, the
    printable rest stays. *)
Lemma string_sanitization_printable_idempotent_witness :
  let s := py "ok" ++ 27%N :: py "[31m" in
  _string_sanitization s = py "ok[31m"
  /\ _string_sanitization (_string_sanitization s) = _string_sanitization s.
Proof.
  intros s.
  destruct (string_sanitization_printable_idempotent s)
    as (_ & Hdrop & Hidem).
  split; [| exact Hidem].
  destruct (Hdrop (py "ok") 27%N (py "[31m") eq_refl) as [_ Hout].
  rewrite Hout; [reflexivity |].
  unfold printable. lia.
Defined.

(* ================================================================== *)
(** ** Lines of a text put after another *)

Lemma splitlines_from_break (a : str) :
  forall (after_cr : bool) (cur : str) (t : N) (b : str),
    (after_cr = true -> cur = []) ->
    is_linebreak t = true ->
    splitlines_from after_cr cur (a ++ t :: b)
    = splitlines_from after_cr cur (a ++ [t])
      ++ splitlines_from (t =? 13)%N [] b.
Proof.
  induction a as [| c a IH]; intros after_cr cur t b Hcur Ht; simpl.
  - destruct (after_cr && (t =? 10)%N) eqn:Hskip.
    + apply andb_true_iff in Hskip. destruct Hskip as [Hk H10].
      rewrite (Hcur Hk). apply N.eqb_eq in H10. subst t. reflexivity.
    + rewrite Ht. reflexivity.
  - destruct (after_cr && (c =? 10)%N) eqn:Hskip.
    + apply IH; [discriminate | exact Ht].
    + destruct (is_linebreak c).
      * rewrite (IH (c =? 13)%N [] t b); [reflexivity | reflexivity | exact Ht].
      * apply IH; [discriminate | exact Ht].
Qed.

Lemma splitlines_from_after_cr (s : str) :
  List.hd 0%N s <> 10%N ->
  splitlines_from true [] s = splitlines_from false [] s.
Proof.
  destruct s as [| c s]; simpl; [reflexivity |].
  intros Hc. apply N.eqb_neq in Hc. now rewrite Hc.
Qed.

Lemma splitlines_twice (text : str) :
  closes_lines text = true ->
  splitlines (text ++ text) = splitlines text ++ splitlines text.
Proof.
  destruct text as [| c rest] eqn:Htext; [reflexivity |].
  rewrite <- Htext. intros Hclose.
  assert (Hne : text <> []) by (rewrite Htext; discriminate).
  unfold closes_lines in Hclose. rewrite Htext in Hclose.
  rewrite <- Htext in Hclose.
  apply andb_true_iff in Hclose. destruct Hclose as [Hbreak Hcrlf].
  pose proof (app_removelast_last 0%N Hne) as Hsplit.
  set (t := List.last text 0%N) in *.
  set (a := List.removelast text) in *.
  unfold splitlines.
  rewrite Hsplit at 1. rewrite <- app_assoc. simpl.
  rewrite splitlines_from_break; [| discriminate | exact Hbreak].
  rewrite <- Hsplit. f_equal.
  destruct (t =? 13)%N eqn:Ht; [| reflexivity].
  apply splitlines_from_after_cr.
  rewrite Htext. simpl. simpl in Hcrlf.
  intros ->. discriminate.
Qed.

(* ================================================================== *)
(** ** One command, wait strategy *)

Ltac run_method :=
  unfold _run_shell_command_in_qube, _run_command_and_wait_for_output,
    _copy_file_from_dom0, bind, emit, ask, ret, raise, read, assert,
    set_status_notified, set_connected, set_initially_running;
  cbn.

Ltac same_state :=
  unfold advance; cbn; rewrite <- ?app_assoc; reflexivity.

Lemma wait_succeeds env command st out err w :
  run_with_args (qube env) command (world st) = (inr (out, err), w) ->
  _run_shell_command_in_qube env command false st
  = (Return (0%Z, _collect_output out err),
     advance st w (status_notified st)
             [run_command_log env command; qube_run_with_args command]).
Proof.
  intros H. run_method. rewrite H. cbn. same_state.
Qed.

Lemma wait_exits_100 env command st err w :
  run_with_args (qube env) command (world st) = (inl err, w) ->
  returncode err = 100%Z ->
  _run_shell_command_in_qube env command false st
  = (Return (0%Z, _collect_output (output err) (output err)),
     advance st w true
             [run_command_log env command; qube_run_with_args command;
              notifier_put (done (qube_name (self env)) NO_UPDATES)]).
Proof.
  intros H H100. run_method. rewrite H. cbn. rewrite H100. cbn. same_state.
Qed.

Lemma wait_fails env command st err w :
  run_with_args (qube env) command (world st) = (inl err, w) ->
  returncode err <> 100%Z ->
  _run_shell_command_in_qube env command false st
  = (Return (returncode err, _collect_output (output err) (output err)),
     advance st w (status_notified st)
             [run_command_log env command; qube_run_with_args command;
              logger_error (err_str err)]).
Proof.
  intros H Hcode. run_method. rewrite H. cbn.
  apply Z.eqb_neq in Hcode. rewrite Hcode. cbn. same_state.
Qed.

(** The payload of an error feeds both buffers of the collector. *)
Lemma wait_error_payload env command st err w :
  run_with_args (qube env) command (world st) = (inl err, w) ->
  exists st',
    _run_command_and_wait_for_output env command st
    = (Return (reported (returncode err), (output err, output err)), st').
Proof.
  intros H. run_method. rewrite H. cbn. unfold reported.
  destruct (returncode err =? 100)%Z; cbn; eexists; reflexivity.
Qed.

Lemma collect_output_twice (payload : bytes) :
  closes_lines (decode_ascii_ignore payload) = true ->
  _collect_output payload payload
  = payload_lines payload ++ payload_lines payload.
Proof.
  intros H. unfold _collect_output, payload_lines.
  rewrite splitlines_twice by exact H. apply map_app.
Qed.

(** C9, as amended.  When the call of the wait strategy fails, with any
    exit code, the payload of the error is given as both the captured
    stdout and the captured stderr, and the lines returned are those of
    the payload's text put after itself.  When that text is empty, or
    ends with a line boundary that an LF at its start does not extend,
    the lines returned are the lines of the payload followed by the same
    lines again. *)
Theorem failed_call_doubles_payload env command st err w :
  run_with_args (qube env) command (world st) = (inl err, w) ->
  (exists st',
      _run_command_and_wait_for_output env command st
      = (Return (reported (returncode err), (output err, output err)), st'))
  /\ (exists st',
         _run_shell_command_in_qube env command false st
         = (Return (reported (returncode err),
                    List.map _string_sanitization
                      (splitlines (decode_ascii_ignore (output err)
                                   ++ decode_ascii_ignore (output err)))),
            st'))
  /\ (closes_lines (decode_ascii_ignore (output err)) = true ->
      exists st',
        _run_shell_command_in_qube env command false st
        = (Return (reported (returncode err),
                   payload_lines (output err) ++ payload_lines (output err)),
           st')).
Proof.
  intros H. split; [| split].
  - now apply wait_error_payload with (w := w).
  - unfold reported. destruct (returncode err =? 100)%Z eqn:Hcode.
    + apply Z.eqb_eq in Hcode.
      rewrite (@wait_exits_100 _ _ _ _ _ H Hcode). eexists; reflexivity.
    + apply Z.eqb_neq in Hcode.
      rewrite (@wait_fails _ _ _ _ _ H Hcode). eexists; reflexivity.
  - intros Hclose. rewrite <- (collect_output_twice _ Hclose).
    unfold reported. destruct (returncode err =? 100)%Z eqn:Hcode.
    + apply Z.eqb_eq in Hcode.
      rewrite (@wait_exits_100 _ _ _ _ _ H Hcode). eexists; reflexivity.
    + apply Z.eqb_neq in Hcode.
      rewrite (@wait_fails _ _ _ _ _ H Hcode). eexists; reflexivity.
Qed.

(** A payload of two lines, the second one closed: [cat] fails with it. *)
Lemma failed_call_doubles_payload_witness :
  let env :=
    connection (a_qube (fails_on "cat" 2 (pyb "a" ++ LF ++ pyb "b" ++ LF) [])
                       idle (exited 0))
               (work false false) in
  exists st',
    _run_shell_command_in_qube env (cat_command env) false
                               (__init__ env true)
    = (Return (2%Z, [py "a"; py "b"; py "a"; py "b"]), st').
Proof.
  intros env.
  destruct (@failed_call_doubles_payload env (cat_command env)
              (__init__ env true)
              (failed 2 (pyb "a" ++ LF ++ pyb "b" ++ LF)) true eq_refl)
    as (_ & _ & Hlines).
  destruct (Hlines eq_refl) as [st' Hrun].
  exists st'. exact Hrun.
Defined.

(** C9 as stated fails: the payload [a LF b] has the lines [a] and [b];
    fed twice to the collector it gives [a], [ba], [b], where [a] and [b]
    stand once each. *)
Lemma error_payload_lines_not_twice :
  let payload := pyb "a" ++ LF ++ pyb "b" in
  let env :=
    connection (a_qube (fails_on "cat" 2 payload []) idle (exited 0))
               (work false false) in
  payload_lines payload = [py "a"; py "b"]
  /\ fst (read_logs env (__init__ env true))
     = Return (2%Z, [py "a"; py "ba"; py "b"])
  /\ count_occ (list_eq_dec N.eq_dec) [py "a"; py "ba"; py "b"] (py "a")
     = 1%nat
  /\ [py "a"; py "ba"; py "b"] <> [py "a"; py "b"; py "a"; py "b"].
Proof.
  cbv zeta. split; [| split; [| split]].
  - vm_compute. reflexivity.
  - vm_compute. reflexivity.
  - vm_compute. reflexivity.
  - intros H. vm_compute in H. discriminate H.
Qed.

(* ================================================================== *)
(** ** Steps in sequence *)

Lemma bind_return {env A B} (m : M env A) (k : A -> M env B) st a st' :
  m st = (Return a, st') -> bind m k st = k a st'.
Proof. intros H. unfold bind. now rewrite H. Qed.

Lemma bind_raise {env A B} (m : M env A) (k : A -> M env B) st e st' :
  m st = (Raise e, st') -> bind m k st = (Raise e, st').
Proof. intros H. unfold bind. now rewrite H. Qed.

Lemma truthy_nonzero (n : Z) : n <> 0%Z -> truthy n = true.
Proof.
  intros H. unfold truthy. apply Z.eqb_neq in H. now rewrite H.
Qed.

Lemma commands_app {float} (a b : list (Call float)) :
  commands (a ++ b) = commands a ++ commands b.
Proof.
  induction a as [| c a IH]; simpl; [reflexivity |].
  destruct c; simpl; now rewrite ?IH.
Qed.

Lemma events_app {float} (a b : list (Call float)) :
  events (a ++ b) = events a ++ events b.
Proof.
  induction a as [| c a IH]; simpl; [reflexivity |].
  destruct c; simpl; now rewrite ?IH.
Qed.

(** What the wait strategy adds to the calls, whatever the qube answers:
    the debug line, the command, and then nothing, the event
    Done/NoUpdates (exit code 100) or an error line (other failures). *)
Lemma wait_step env command st :
  exists code lines notified tail,
    _run_shell_command_in_qube env command false st
    = (Return (code, lines),
       advance st (snd (run_with_args (qube env) command (world st)))
               notified
               (run_command_log env command :: qube_run_with_args command
                :: tail))
    /\ (tail = [] /\ notified = status_notified st
        \/ tail = [notifier_put (done (qube_name (self env)) NO_UPDATES)]
           /\ notified = true
        \/ (exists msg, tail = [logger_error msg])
           /\ notified = status_notified st).
Proof.
  destruct (run_with_args (qube env) command (world st))
    as [[err | [out errs]] w] eqn:H; cbn [snd].
  - destruct (Z.eq_dec (returncode err) 100) as [Hcode | Hcode].
    + rewrite (@wait_exits_100 _ _ _ _ _ H Hcode).
      do 4 eexists. split; [reflexivity |]. right; left. now split.
    + rewrite (@wait_fails _ _ _ _ _ H Hcode).
      do 4 eexists. split; [reflexivity |]. right; right.
      split; [now eexists | reflexivity].
  - rewrite (@wait_succeeds _ _ _ _ _ _ H).
    do 4 eexists. split; [reflexivity |]. left. now split.
Qed.

(** The calls of the wait strategy, read from a run of it. *)
Lemma wait_step_calls env command st result st' :
  _run_shell_command_in_qube env command false st = (Return result, st') ->
  exists tail,
    calls st' = calls st ++ run_command_log env command
                         :: qube_run_with_args command :: tail
    /\ commands tail = []
    /\ existsb is_popen tail = false
    /\ existsb is_shutdown tail = false
    /\ __connected st' = __connected st
    /\ _initially_running st' = _initially_running st.
Proof.
  intros Hrun.
  destruct (wait_step env command st)
    as (code & lines & notified & tail & Heq & Htail).
  rewrite Heq in Hrun. injection Hrun as _ <-.
  exists tail. cbn.
  destruct Htail as [[-> _] | [[-> _] | [[msg ->] _]]]; now repeat split.
Qed.

(** The copy of the archive: it returns 0 and the empty string, or 1 and
    the [str] of the [OSError]; it sends no command with
    [run_with_args]. *)
Lemma copy_step env src dest st :
  exists code message command,
    _copy_file_from_dom0 env src dest st
    = (Return (code, message),
       advance st (snd (popen_stdin (qube env) command src (world st)))
               (status_notified st)
               [logger_debug (py "run command: " ++ join (py " ") command
                              ++ py " < " ++ src);
                os_popen command src])
    /\ (code = 0%Z /\ message = [] \/ code = 1%Z).
Proof.
  run_method.
  match goal with
  | |- context [popen_stdin (qube env) ?c src (world st)] =>
    set (command := c)
  end.
  destruct (popen_stdin (qube env) command src (world st))
    as [[msg | ret_code] w] eqn:H; cbn.
  - exists 1%Z, msg, command. rewrite H. cbn.
    split; [same_state | now right].
  - destruct (truthy ret_code) eqn:Hret; cbn.
    + exists 1%Z, (py "Command returns code: " ++ str_of_int ret_code), command.
      rewrite H. cbn. split; [same_state | now right].
    + exists 0%Z, [], command. rewrite H. cbn.
      split; [same_state | now left].
Qed.

Lemma copy_step_calls env src dest st result st' :
  _copy_file_from_dom0 env src dest st = (Return result, st') ->
  (exists added,
      calls st' = calls st ++ added
      /\ commands added = []
      /\ (forall c, In c added -> is_popen c = true
                                 \/ exists msg, c = logger_debug msg))
  /\ (fst result = 0%Z /\ snd result = [] \/ fst result = 1%Z).
Proof.
  intros Hrun.
  destruct (copy_step env src dest st)
    as (code & message & command & Heq & Hcode).
  rewrite Heq in Hrun. injection Hrun as <- <-. cbn. split.
  - eexists. split; [reflexivity |]. split; [reflexivity |].
    intros c [<- | [<- | []]]; [right; now eexists | now left].
  - exact Hcode.
Qed.

(** The archive step, from what dom0 answers: the assertion fails on a
    closed connection; an exception of [mkdtemp] or [make_archive] goes
    on to the caller; otherwise the two paths are returned. *)
Lemma archive_agent_exact env src_dir st :
  archive_agent env src_dir st
  = if __connected st then
      match mkdtemp (qube env) (world st) with
      | (os_raises msg, w) =>
        (Raise (OtherError msg),
         advance st w (status_notified st) [os_mkdtemp])
      | (os_returns arch_dir, w) =>
        let base_dir := basename (strip_sep src_dir) in
        let made :=
          os_make_archive (path_join arch_dir base_dir) (dirname src_dir)
                          base_dir in
        match make_archive (qube env) (path_join arch_dir base_dir)
                           (dirname src_dir) base_dir w with
        | (os_raises msg, w') =>
          (Raise (OtherError msg),
           advance st w' (status_notified st) [os_mkdtemp; made])
        | (os_returns _, w') =>
          (Return (path_join arch_dir (base_dir ++ py ".tar.gz"),
                   path_join (dest_dir (self env))
                             (base_dir ++ py ".tar.gz")),
           advance st w' (status_notified st) [os_mkdtemp; made])
        end
      end
    else (Raise AssertionError, st).
Proof.
  unfold archive_agent, bind, read, assert, emit, attempt, ret, raise.
  cbn. destruct (__connected st); cbn; [| reflexivity].
  destruct (mkdtemp (qube env) (world st)) as [[arch_dir | msg] w]; cbn;
    [| same_state].
  destruct (make_archive (qube env)
                         (path_join arch_dir (basename (strip_sep src_dir)))
                         (dirname src_dir) (basename (strip_sep src_dir)) w)
    as [[[] | msg] w']; cbn; same_state.
Qed.

(** The archive step sends nothing to the qube. *)
Lemma archive_step_calls env src_dir st paths st' :
  archive_agent env src_dir st = (Return paths, st') ->
  exists added,
    calls st' = calls st ++ added
    /\ commands added = []
    /\ existsb is_popen added = false
    /\ __connected st = true.
Proof.
  rewrite archive_agent_exact.
  destruct (__connected st) eqn:Hconn; [| discriminate].
  destruct (mkdtemp (qube env) (world st)) as [[arch_dir | msg] w];
    [| discriminate].
  cbv zeta.
  destruct (make_archive (qube env) _ _ _ w) as [[[] | msg] w'];
    [| discriminate].
  intros Hrun. injection Hrun as _ <-. cbn [calls advance].
  eexists. split; [reflexivity |]. now repeat split.
Qed.

(* ================================================================== *)
(** ** The transfer of the agent *)

(** [transfer_agent] step by step: A is the result of [mkdir], B of the
    copy (its output a [str], added character by character), C of
    [tar]. *)
Lemma transfer_agent_steps env src_dir st src_arch dest_arch st1 A st2 :
  archive_agent env src_dir st = (Return (src_arch, dest_arch), st1) ->
  _run_shell_command_in_qube env (mkdir_command env) false st1
  = (Return A, st2) ->
  (fst A <> 0%Z -> transfer_agent env src_dir st = (Return A, st2))
  /\ (fst A = 0%Z ->
      forall B st3,
        _copy_file_from_dom0 env src_arch dest_arch st2 = (Return B, st3) ->
        (fst B <> 0%Z ->
         transfer_agent env src_dir st
         = (Return (combine A (fst B, chars (snd B))), st3))
        /\ (fst B = 0%Z ->
            forall C st4,
              _run_shell_command_in_qube env (tar_command env dest_arch)
                                         false st3
              = (Return C, st4) ->
              transfer_agent env src_dir st
              = (Return (combine (combine A (fst B, chars (snd B))) C),
                 st4))).
Proof.
  intros Harch Hmkdir. destruct A as [codeA linesA]. cbn [fst snd].
  unfold transfer_agent.
  rewrite (bind_return _ _ _ _ _ Harch). cbv beta iota zeta.
  rewrite (bind_return _ _ _ _ _ Hmkdir). cbv beta iota zeta.
  split.
  - intros HA. now rewrite (truthy_nonzero _ HA).
  - intros ->. change (truthy 0) with false. cbv iota.
    intros [codeB outB] st3 Hcopy. cbn [fst snd].
    rewrite (bind_return _ _ _ _ _ Hcopy). cbv beta iota zeta.
    destruct (copy_step_calls _ _ _ _ _ _ Hcopy) as [_ HB]. cbn in HB.
    split.
    + intros HcodeB.
      destruct HB as [[-> _] | ->]; [congruence |]. reflexivity.
    + intros ->. change (truthy (Z.max 0 0)) with false. cbv iota.
      intros [codeC linesC] st4 Htar.
      now rewrite (bind_return _ _ _ _ _ Htar).
Qed.

(** C3, as amended.  When the directory-creation step A of a transfer
    returns a nonzero exit code, the transfer stops right after A: what
    it returns is A's code with A's lines, in the state A left, and of
    all its calls only [mkdir] is a command; the archive is not
    copied. *)
Theorem transfer_stops_at_failed_mkdir
        env src_dir st src_arch dest_arch st1 code lines st2 :
  archive_agent env src_dir st = (Return (src_arch, dest_arch), st1) ->
  _run_shell_command_in_qube env (mkdir_command env) false st1
  = (Return (code, lines), st2) ->
  code <> 0%Z ->
  transfer_agent env src_dir st = (Return (code, lines), st2)
  /\ exists added,
      calls st2 = calls st ++ added
      /\ commands added = [mkdir_command env]
      /\ existsb is_popen added = false.
Proof.
  intros Harch Hmkdir Hcode. split.
  - now apply (transfer_agent_steps _ _ _ _ _ _ _ _ Harch Hmkdir).
  - destruct (archive_step_calls _ _ _ _ _ Harch)
      as (packed & Hpacked & Hcmd & Hpopen & _).
    destruct (wait_step_calls _ _ _ _ _ Hmkdir)
      as (tail & Htail & Hcmd' & Hpopen' & _).
    eexists. split.
    + rewrite Htail, Hpacked, <- app_assoc. reflexivity.
    + split.
      * rewrite commands_app, Hcmd. cbn. now rewrite Hcmd'.
      * rewrite existsb_app, Hpopen. cbn. exact Hpopen'.
Qed.

(** C8.  When the directory creation of a transfer returns 0 and the
    copy fails, the transfer stops there: it returns the code
    [max 0 copy_code], which is 1, and the lines of the directory
    creation followed by what the copy appended; it stays in the state
    the copy left, where the only command this transfer sent is
    [mkdir]: no [tar] command is issued and no output of an extraction
    is in the result. *)
Theorem transfer_stops_at_failed_copy
        env src_dir st src_arch dest_arch st1 lines st2
        copy_code message st3 :
  archive_agent env src_dir st = (Return (src_arch, dest_arch), st1) ->
  _run_shell_command_in_qube env (mkdir_command env) false st1
  = (Return (0%Z, lines), st2) ->
  _copy_file_from_dom0 env src_arch dest_arch st2
  = (Return (copy_code, message), st3) ->
  copy_code <> 0%Z ->
  transfer_agent env src_dir st
  = (Return (Z.max 0 copy_code, lines ++ chars message), st3)
  /\ Z.max 0 copy_code = 1%Z
  /\ exists added,
      calls st3 = calls st ++ added
      /\ commands added = [mkdir_command env]
      /\ ~ In (qube_run_with_args (tar_command env dest_arch)) added.
Proof.
  intros Harch Hmkdir Hcopy Hcode.
  destruct (transfer_agent_steps _ _ _ _ _ _ _ _ Harch Hmkdir)
    as [_ Hnext].
  destruct (Hnext eq_refl _ _ Hcopy) as [Hstop _].
  split; [exact (Hstop Hcode) |].
  destruct (copy_step_calls _ _ _ _ _ _ Hcopy)
    as [(copied & Hcopied & Hcmd3 & _) Hvalue].
  cbn in Hvalue. split.
  - destruct Hvalue as [[-> _] | ->]; [congruence | reflexivity].
  - destruct (archive_step_calls _ _ _ _ _ Harch)
      as (packed & Hpacked & Hcmd1 & _).
    destruct (wait_step_calls _ _ _ _ _ Hmkdir)
      as (tail & Htail & Hcmd2 & _).
    assert (Hall : commands
                     (packed ++ (run_command_log env (mkdir_command env)
                                 :: qube_run_with_args (mkdir_command env)
                                 :: tail) ++ copied)
                   = [mkdir_command env]).
    { rewrite !commands_app, Hcmd1, Hcmd3. cbn. now rewrite Hcmd2. }
    eexists. split; [| split; [exact Hall |]].
    + rewrite Hcopied, Htail, Hpacked, <- !app_assoc. reflexivity.
    + intros Hin.
      assert (Hmem : In (tar_command env dest_arch) [mkdir_command env]).
      { rewrite <- Hall. clear Hall.
        induction (packed ++ (run_command_log env (mkdir_command env)
                              :: qube_run_with_args (mkdir_command env)
                              :: tail) ++ copied) as [| c l IH];
          [contradiction |].
        destruct Hin as [-> | Hin]; [now left |].
        destruct c; cbn; auto. }
      destruct Hmem as [Heq | []].
      unfold mkdir_command, tar_command in Heq. discriminate Heq.
Qed.

(** [mkdir] is refused: the transfer returns what [mkdir] returned. *)
Lemma transfer_stops_at_failed_mkdir_witness :
  let env :=
    connection (a_qube (fails_on "mkdir" 1
                                 (pyb "mkdir: Permission denied" ++ LF) [])
                       idle (exited 0))
               (work false false) in
  exists st',
    transfer_agent env (py "/usr/lib/agent") (entered env false)
    = (Return (1%Z, [py "mkdir: Permission denied";
                     py "mkdir: Permission denied"]), st').
Proof.
  intros env.
  edestruct (transfer_stops_at_failed_mkdir
               env (py "/usr/lib/agent") (entered env false)) as [H _].
  - cbv. reflexivity.
  - cbv. reflexivity.
  - discriminate.
  - eexists. exact H.
Defined.

(** C3 as stated fails: with a [mkdir] that exits with 1 the transfer
    returns 1 and the lines of [mkdir], and the copy is not performed:
    no process is started in dom0 and [mkdir] is the only command. *)
Lemma failed_mkdir_skips_copy :
  let env :=
    connection (a_qube (fails_on "mkdir" 1
                                 (pyb "mkdir: Permission denied" ++ LF) [])
                       idle (exited 0))
               (work false false) in
  let run := transfer_agent env (py "/usr/lib/agent") (entered env false) in
  fst run = Return (1%Z, [py "mkdir: Permission denied";
                          py "mkdir: Permission denied"])
  /\ existsb is_popen (calls (snd run)) = false
  /\ commands (calls (snd run)) = [mkdir_command env].
Proof.
  cbv zeta. split; [| split]; vm_compute; reflexivity.
Qed.

(** The copy exits with 3: the transfer returns 1 and the characters of
    the message. *)
Lemma transfer_stops_at_failed_copy_witness :
  let env :=
    connection (a_qube quiet idle (exited 3)) (work false false) in
  exists st',
    transfer_agent env (py "/usr/lib/agent") (entered env false)
    = (Return (1%Z, chars (py "Command returns code: 3")), st')
    /\ commands (calls st') = [mkdir_command env].
Proof.
  intros env.
  edestruct (transfer_stops_at_failed_copy
               env (py "/usr/lib/agent") (entered env false))
    as (H & _ & added & Hcalls & Hcommands & _).
  - cbv. reflexivity.
  - cbv. reflexivity.
  - cbv. reflexivity.
  - discriminate.
  - eexists. split; [exact H |].
    rewrite Hcalls. exact Hcommands.
Defined.

Lemma chars_nth (message : str) (i : nat) (c : N) :
  nth_error message i = Some c -> nth_error (chars message) i = Some [c].
Proof.
  intros H. unfold chars. now rewrite nth_error_map, H.
Qed.

Lemma chars_single (message : str) :
  Forall (fun entry => List.length entry = 1%nat) (chars message).
Proof.
  apply Forall_forall. intros entry Hin.
  apply in_map_iff in Hin. destruct Hin as (c & <- & _). reflexivity.
Qed.

(** C10.  The copy step returns a [str] ([message] below), and for every
    transfer whose copy fails the result is the lines of the directory
    creation followed by one entry per character of the message, each
    entry that one character, in the order of the message; the message,
    when it has two characters or more, is not one of these entries. *)
Theorem failed_copy_appends_characters
        env src_dir st src_arch dest_arch st1 lines st2
        copy_code (message : str) st3 :
  archive_agent env src_dir st = (Return (src_arch, dest_arch), st1) ->
  _run_shell_command_in_qube env (mkdir_command env) false st1
  = (Return (0%Z, lines), st2) ->
  _copy_file_from_dom0 env src_arch dest_arch st2
  = (Return (copy_code, message), st3) ->
  copy_code <> 0%Z ->
  exists appended,
    transfer_agent env src_dir st = (Return (1%Z, lines ++ appended), st3)
    /\ List.length appended = List.length message
    /\ (forall i c, nth_error message i = Some c ->
                    nth_error appended i = Some [c])
    /\ Forall (fun entry => List.length entry = 1%nat) appended
    /\ List.concat appended = message
    /\ ((2 <= List.length message)%nat -> ~ In message appended).
Proof.
  intros Harch Hmkdir Hcopy Hcode.
  destruct (transfer_agent_steps _ _ _ _ _ _ _ _ Harch Hmkdir)
    as [_ Hnext].
  destruct (Hnext eq_refl _ _ Hcopy) as [Hstop _].
  specialize (Hstop Hcode). cbn in Hstop.
  destruct (copy_step_calls _ _ _ _ _ _ Hcopy) as [_ Hvalue].
  cbn in Hvalue.
  assert (copy_code = 1%Z) as -> by (destruct Hvalue as [[? _] | ?]; congruence).
  exists (chars message). split; [exact Hstop |].
  split; [apply length_map |].
  split; [apply chars_nth |].
  split; [apply chars_single |].
  split.
  - clear. unfold chars.
    induction message as [| c m IH]; simpl; [reflexivity |].
    f_equal. exact IH.
  - intros Hlen Hin.
    pose proof (chars_single message) as Hone.
    rewrite Forall_forall in Hone. specialize (Hone _ Hin). lia.
Qed.

(** The copy cannot open the archive: the message comes back character
    by character. *)
Lemma failed_copy_appends_characters_witness :
  let env :=
    connection (a_qube quiet idle (os_error (py "No such file")))
               (work false false) in
  exists appended st',
    transfer_agent env (py "/usr/lib/agent") (entered env false)
    = (Return (1%Z, appended), st')
    /\ List.length appended = 12%nat
    /\ nth_error appended 0 = Some (py "N").
Proof.
  intros env.
  edestruct (failed_copy_appends_characters
               env (py "/usr/lib/agent") (entered env false))
    as (appended & H & Hlen & Hnth & _).
  - cbv. reflexivity.
  - cbv. reflexivity.
  - cbv. reflexivity.
  - discriminate.
  - exists appended. eexists. split; [exact H |].
    split; [exact Hlen | exact (Hnth 0%nat _ eq_refl)].
Defined.

(* ================================================================== *)
(** ** The combination of step results *)

Lemma combine_assoc (A B C : CommandResult) :
  combine A (combine B C) = combine (combine A B) C.
Proof.
  unfold combine. cbn. now rewrite Z.max_assoc, app_assoc.
Qed.

(** [run_entrypoint] returns the combination of its two steps. *)
Lemma run_entrypoint_steps env entrypoint_path agent_args st A st1 B st2 :
  _run_shell_command_in_qube env (chmod_command entrypoint_path) false st
  = (Return A, st1) ->
  _run_shell_command_in_qube
    env (entrypoint_command env entrypoint_path agent_args)
    (show_progress (self env)) st1
  = (Return B, st2) ->
  run_entrypoint env entrypoint_path agent_args st
  = (Return (combine A B), st2).
Proof.
  intros HA HB. destruct A as [codeA linesA]. destruct B as [codeB linesB].
  unfold run_entrypoint.
  rewrite (bind_return _ _ _ _ _ HA). cbv beta iota zeta.
  now rewrite (bind_return _ _ _ _ _ HB).
Qed.

(** C7, as amended.  The combination of two results has the larger of
    the two codes and the lines of the first followed by the lines of the
    second, and it is associative.  [run_entrypoint] returns the
    combination of its two steps, and [transfer_agent] the combination of
    the steps it ran (the first alone when it failed).  Hence a later step
    that succeeds cannot mask the positive exit code of an earlier
    step. *)
Theorem steps_combine_by_max env :
  (forall A B : CommandResult,
      fst (combine A B) = Z.max (fst A) (fst B)
      /\ snd (combine A B) = snd A ++ snd B)
  /\ (forall A B C : CommandResult,
         combine A (combine B C) = combine (combine A B) C)
  /\ (forall A B : CommandResult,
         (0 < fst A)%Z -> fst B = 0%Z -> fst (combine A B) = fst A)
  /\ (forall entrypoint_path agent_args st A st1 B st2,
         _run_shell_command_in_qube env (chmod_command entrypoint_path)
                                    false st
         = (Return A, st1) ->
         _run_shell_command_in_qube
           env (entrypoint_command env entrypoint_path agent_args)
           (show_progress (self env)) st1
         = (Return B, st2) ->
         run_entrypoint env entrypoint_path agent_args st
         = (Return (combine A B), st2))
  /\ (forall src_dir st src_arch dest_arch st1 A st2,
         archive_agent env src_dir st
         = (Return (src_arch, dest_arch), st1) ->
         _run_shell_command_in_qube env (mkdir_command env) false st1
         = (Return A, st2) ->
         (fst A <> 0%Z -> transfer_agent env src_dir st = (Return A, st2))
         /\ (fst A = 0%Z ->
             forall B st3,
               _copy_file_from_dom0 env src_arch dest_arch st2
               = (Return B, st3) ->
               (fst B <> 0%Z ->
                transfer_agent env src_dir st
                = (Return (combine A (fst B, chars (snd B))), st3))
               /\ (fst B = 0%Z ->
                   forall C st4,
                     _run_shell_command_in_qube
                       env (tar_command env dest_arch) false st3
                     = (Return C, st4) ->
                     transfer_agent env src_dir st
                     = (Return
                          (combine (combine A (fst B, chars (snd B))) C),
                        st4)))).
Proof.
  split; [| split; [| split; [| split]]].
  - intros A B. now split.
  - apply combine_assoc.
  - intros A B HA HB. cbn. rewrite HB. lia.
  - apply run_entrypoint_steps.
  - apply transfer_agent_steps.
Qed.

(** [chmod] fails with 1 and the entrypoint runs well: 1 is returned. *)
Lemma steps_combine_by_max_witness :
  let env :=
    connection (a_qube (fails_on "chmod" 1 (pyb "chmod: no such file" ++ LF)
                                 (pyb "updated" ++ LF))
                       idle (exited 0))
               (work false false) in
  (exists lines st',
      run_entrypoint env (py "/run/qubes-update/agent/entrypoint.py")
                     [py "--log"; py "INFO"] (entered env true)
      = (Return (1%Z, lines), st'))
  /\ fst (combine (1%Z, [py "chmod: no such file"]) (0%Z, [py "updated"]))
     = 1%Z.
Proof.
  intros env.
  destruct (steps_combine_by_max env) as (_ & _ & Hkeep & Hrun & _).
  split.
  - eexists. eexists.
    rewrite (Hrun (py "/run/qubes-update/agent/entrypoint.py")
                  [py "--log"; py "INFO"] (entered env true)
                  _ _ _ _ eq_refl eq_refl).
    cbv. reflexivity.
  - apply Hkeep; [reflexivity | reflexivity].
Defined.

(** C7 as stated fails: [chmod] is killed by a signal (return code -9),
    the entrypoint then runs well, and [run_entrypoint] returns 0: the
    nonzero code of the first step is masked. *)
Lemma later_success_masks_negative_code :
  let env :=
    connection (a_qube (fails_on "chmod" (-9) [] (pyb "updated" ++ LF))
                       idle (exited 0))
               (work false false) in
  let path := py "/run/qubes-update/agent/entrypoint.py" in
  let first :=
    _run_shell_command_in_qube env (chmod_command path) false
                               (entered env true) in
  let second :=
    _run_shell_command_in_qube env (entrypoint_command env path [])
                               false (snd first) in
  fst first = Return ((-9)%Z, [])
  /\ fst second = Return (0%Z, [py "updated"])
  /\ fst (run_entrypoint env path [] (entered env true))
     = Return (0%Z, [py "updated"]).
Proof.
  cbv zeta. split; [| split]; vm_compute; reflexivity.
Qed.

(* ================================================================== *)
(** ** One command, streaming strategy *)

Lemma advance_nothing {env} (st : State env) :
  advance st (world st) (status_notified st) [] = st.
Proof. destruct st. unfold advance. cbn. now rewrite app_nil_r. Qed.

Lemma advance_advance {env} (st : State env) w n a w' n' b :
  advance (advance st w n a) w' n' b = advance st w' n' (a ++ b).
Proof. unfold advance. cbn. now rewrite app_assoc. Qed.

Lemma emit_advance {env} (c : Call (float (fl env))) (st : State env) :
  emit c st = (Return tt, advance st (world st) (status_notified st) [c]).
Proof. reflexivity. Qed.

(** The reading of stderr returns a buffer or raises
    [UnicodeDecodeError]; all it calls is the notifier, with progress
    events. *)
Lemma collect_stderr_loop_outcome env lines :
  forall buf finished st,
  exists outcome values,
    _collect_stderr_loop env lines buf finished st
    = (outcome,
       advance st (world st) (status_notified st) (pending_puts env values))
    /\ (outcome = Raise UnicodeDecodeError \/ exists b, outcome = Return b).
Proof.
  induction lines as [| line rest IH]; intros buf finished st.
  - exists (Return buf), []. cbn. rewrite advance_nothing.
    split; [reflexivity | right; now eexists].
  - cbn [_collect_stderr_loop]. destruct line as [| b0 line'].
    + exists (Return buf), []. cbn. rewrite advance_nothing.
      split; [reflexivity | right; now eexists].
    + destruct finished; cbn [negb].
      * apply IH.
      * destruct (decode_utf8 (b0 :: line')) as [decoded |].
        -- destruct (float_of_str (fl env)
                       (_string_sanitization (rstrip decoded)))
             as [progress |].
           ++ unfold bind at 1. rewrite emit_advance.
              match goal with
              | |- context [_collect_stderr_loop env rest buf ?f ?s] =>
                destruct (IH buf f s) as (outcome & values & Heq & Hout)
              end.
              exists outcome, (progress :: values).
              rewrite Heq, advance_advance. split; [reflexivity | exact Hout].
           ++ apply IH.
        -- exists (Raise UnicodeDecodeError), []. cbn.
           rewrite advance_nothing. split; [reflexivity | now left].
Qed.

Lemma bind_emit {env B} (c : Call (float (fl env))) (k : unit -> M env B) st :
  bind (emit c) k st = k tt (advance st (world st) (status_notified st) [c]).
Proof. reflexivity. Qed.

Lemma bind_ret {env A B} (a : A) (k : A -> M env B) st :
  bind (ret a) k st = k a st.
Proof. reflexivity. Qed.

Lemma bind_assoc {env A B C} (m : M env A) (k : A -> M env B)
      (k' : B -> M env C) st :
  bind (bind m k) k' st = bind m (fun a => bind (k a) k') st.
Proof.
  unfold bind. destruct (m st) as [[a | e] st']; reflexivity.
Qed.

Lemma bind_ask {env A B} (step : world_type env -> A * world_type env)
      (k : A -> M env B) st :
  bind (ask step) k st
  = k (fst (step (world st)))
      (advance st (snd (step (world st))) (status_notified st) []).
Proof.
  unfold bind, ask, advance. destruct (step (world st)) as [a w]. cbn.
  now rewrite app_nil_r.
Qed.

Lemma bind_set_status_notified {env B} (b : bool) (k : unit -> M env B) st :
  bind (set_status_notified b) k st = k tt (advance st (world st) b []).
Proof.
  unfold bind, set_status_notified, advance. cbn. now rewrite app_nil_r.
Qed.

(** The streaming strategy, from what the reading of stderr gives in the
    state where the service has been asked for: its exception goes on to
    the caller; its buffer is collected with stdout, and the exit code
    100 is reported as 0 with the event Done/NoUpdates. *)
Lemma streaming_after_stderr env command st outcome st2 :
  let answer :=
    run_service (qube env) (service_name env command) (world st) in
  let code := proc_returncode (fst answer) in
  _collect_stderr env (fst answer)
    (advance st (snd answer) (status_notified st)
             [run_command_log env command;
              qube_run_service (service_name env command)])
  = (outcome, st2) ->
  _run_shell_command_in_qube env command true st
  = match outcome with
    | Raise e => (Raise e, st2)
    | Return buf =>
      (Return (reported code,
               _collect_output (_collect_stdout (fst answer)) buf),
       if (code =? 100)%Z
       then advance st2 (world st2) true
                    [notifier_put (done (qube_name (self env)) NO_UPDATES)]
       else st2)
    end.
Proof.
  cbv zeta. intros Hstderr.
  unfold _run_shell_command_in_qube. cbn [negb].
  rewrite bind_emit.
  unfold _run_command_and_actively_report_progress. cbv zeta.
  rewrite bind_assoc, bind_emit, bind_assoc, bind_ask.
  rewrite !advance_advance. cbn [world status_notified advance app].
  set (answer := run_service (qube env) (service_name env command) (world st))
    in *.
  rewrite bind_assoc.
  destruct outcome as [buf | e].
  - fold (advance st (snd answer) (status_notified st)
                  ([run_command_log env command]
                   ++ [qube_run_service (service_name env command)] ++ [])).
    cbn [app].
    rewrite (bind_return _ _ _ _ _ Hstderr). unfold reported.
    destruct (proc_returncode (fst answer) =? 100)%Z.
    + rewrite !bind_assoc, bind_emit, bind_assoc, bind_set_status_notified.
      rewrite !bind_ret. cbv beta iota. unfold ret.
      rewrite !advance_advance. cbn [fst snd world app]. reflexivity.
    + rewrite bind_assoc, !bind_ret. cbv beta iota. unfold ret.
      reflexivity.
  - fold (advance st (snd answer) (status_notified st)
                  ([run_command_log env command]
                   ++ [qube_run_service (service_name env command)] ++ [])).
    cbn [app].
    now rewrite (bind_raise _ _ _ _ _ Hstderr).
Qed.

(** The streaming strategy: it raises [UnicodeDecodeError] from the
    reading of stderr, or returns the reported code and the collected
    lines; its calls are the debug line, the service, the progress events
    and, for the exit code 100, the event Done/NoUpdates. *)
Lemma streaming_step env command st :
  let answer :=
    run_service (qube env) (service_name env command) (world st) in
  let code := proc_returncode (fst answer) in
  exists values,
    _run_shell_command_in_qube env command true st
    = (Raise UnicodeDecodeError,
       advance st (snd answer) (status_notified st)
               (run_command_log env command
                :: qube_run_service (service_name env command)
                :: pending_puts env values))
    \/ exists buf,
      _run_shell_command_in_qube env command true st
      = (Return (reported code,
                 _collect_output (_collect_stdout (fst answer)) buf),
         advance st (snd answer)
                 (if (code =? 100)%Z then true else status_notified st)
                 (run_command_log env command
                  :: qube_run_service (service_name env command)
                  :: pending_puts env values
                  ++ (if (code =? 100)%Z
                      then [notifier_put
                              (done (qube_name (self env)) NO_UPDATES)]
                      else []))).
Proof.
  cbv zeta.
  set (answer := run_service (qube env) (service_name env command) (world st)).
  set (st1 := advance st (snd answer) (status_notified st)
                      [run_command_log env command;
                       qube_run_service (service_name env command)]).
  destruct (collect_stderr_loop_outcome env (stderr (fst answer)) [] false st1)
    as (outcome & values & Heq & Hout).
  rewrite (streaming_after_stderr env command st _ _ Heq).
  fold answer. exists values.
  destruct Hout as [-> | [buf ->]].
  - left. unfold st1. now rewrite advance_advance.
  - right. exists buf. unfold st1. rewrite !advance_advance.
    cbn [world status_notified advance].
    destruct (proc_returncode (fst answer) =? 100)%Z.
    + reflexivity.
    + now rewrite !app_nil_r.
Qed.

(* ================================================================== *)
(** ** The exit code 100 *)

Lemma count_done_app {float} (f : FinalStatus)
      (a b : list (StatusInfo float)) :
  count_done f (a ++ b) = (count_done f a + count_done f b)%nat.
Proof.
  unfold count_done. now rewrite filter_app, length_app.
Qed.

Lemma count_done_pending env (f : FinalStatus) values :
  count_done f (events (pending_puts env values)) = 0%nat.
Proof.
  induction values as [| p values IH]; [reflexivity | exact IH].
Qed.

(** C1 as stated fails: in a session whose two commands exit with 100,
    both are reported with the code 0 and the notifier gets two
    Done/NoUpdates events, not one. *)
Lemma second_exit_100_emits_again :
  let env :=
    connection (a_qube always_100 idle (exited 0)) (work false false) in
  let first := read_logs env (entered env true) in
  let second := read_logs env (snd first) in
  let session :=
    with_connection env (bind (read_logs env) (fun _ => read_logs env))
                    (__init__ env true) in
  fst first = Return (0%Z, [py "nothing to do"; py "nothing to do"])
  /\ fst second = Return (0%Z, [py "nothing to do"; py "nothing to do"])
  /\ events (calls (snd session))
     = [done (py "work") NO_UPDATES; done (py "work") NO_UPDATES]
  /\ count_done NO_UPDATES (events (calls (snd session))) = 2%nat.
Proof.
  cbv zeta. repeat split; vm_compute; reflexivity.
Qed.

(* ================================================================== *)
(** ** The classifier of the diagnostic channel *)

(** X4.  On lines that are all valid UTF-8 (and none of them empty, as
    [readline] gives them before the end of the stream), the loop of
    [_collect_stderr] is the two-state classifier: the values it forwards
    are the classifier's, in order, and so is its buffer. *)
Lemma collect_stderr_classifies env lines :
  forall latch buf st,
    Forall (fun l => l <> []) lines ->
    Forall (fun l => decode_utf8 l <> None) lines ->
    _collect_stderr_loop env lines buf (latched latch) st
    = (Return (buf ++ snd (classify (fl env) latch lines)),
       advance st (world st) (status_notified st)
               (pending_puts env (fst (classify (fl env) latch lines)))).
Proof.
  induction lines as [| line rest IH]; intros latch buf st Hne Hutf.
  - cbn. now rewrite app_nil_r, advance_nothing.
  - inversion Hne as [| ? ? Hline Hne']. inversion Hutf as [| ? ? Hdec Hutf'].
    subst. cbn [_collect_stderr_loop classify].
    destruct line as [| b0 line']; [congruence |].
    destruct latch; cbn [latched negb].
    + destruct (decode_utf8 (b0 :: line')) as [decoded |]; [| congruence].
      cbn [option_map].
      destruct (float_of_str (fl env) (_string_sanitization (rstrip decoded)))
        as [progress |].
      * rewrite bind_emit.
        specialize (IH (if float_eq_100 (fl env) progress
                        then DiagnosticsOnly else Classifying)
                       buf
                       (advance st (world st) (status_notified st)
                                [notifier_put
                                   (pending (qube_name (self env)) progress)])
                       Hne' Hutf').
        replace (latched (if float_eq_100 (fl env) progress
                          then DiagnosticsOnly else Classifying))
          with (if float_eq_100 (fl env) progress then true else false)
          in IH by (now destruct (float_eq_100 (fl env) progress)).
        rewrite IH.
        destruct (classify (fl env)
                           (if float_eq_100 (fl env) progress
                            then DiagnosticsOnly else Classifying) rest)
          as [ps b].
        cbn [fst snd]. now rewrite advance_advance.
      * pose proof (IH Classifying (buf ++ b0 :: line') st Hne' Hutf')
          as IHc.
        cbn [latched] in IHc. rewrite IHc.
        destruct (classify (fl env) Classifying rest) as [ps b].
        cbn [fst snd]. now rewrite <- app_assoc.
    + pose proof (IH DiagnosticsOnly (buf ++ b0 :: line') st Hne' Hutf')
        as IHd.
      cbn [latched] in IHd. rewrite IHd.
      destruct (classify (fl env) DiagnosticsOnly rest) as [ps b].
      cbn [fst snd]. now rewrite <- app_assoc.
Qed.

(** The example of the specification: 12.5, 50.0 and 100.0 are
    forwarded, "building..." goes to the buffer, and after 100.0 the lines
    "99.0" and "done" go to the buffer as they are. *)
Lemma collect_stderr_example :
  let env := connection (a_qube quiet idle (exited 0)) (work false false) in
  let run :=
    _collect_stderr env (reporting progress_lines 0) (entered env true) in
  fst run = Return (pyb "building..." ++ LF ++ pyb "99.0" ++ LF
                    ++ pyb "done" ++ LF)
  /\ events (calls (snd run))
     = [pending (py "work") (125%N, 1%nat);
        pending (py "work") (500%N, 1%nat);
        pending (py "work") (1000%N, 1%nat)].
Proof.
  cbv zeta. split; vm_compute; reflexivity.
Qed.

(** C5, at the input where the code leaves it.  A line of the
    diagnostic channel that is not valid UTF-8 and is read before the
    latch does not parse as a float; the classifier of the specification
    appends it to the buffer, while [_collect_stderr] raises
    [UnicodeDecodeError] there, and with it the whole streaming
    command. *)
Theorem undecodable_line_raises env command st line rest :
  let answer :=
    run_service (qube env) (service_name env command) (world st) in
  stderr (fst answer) = line :: rest ->
  line <> [] ->
  decode_utf8 line = None ->
  (forall st1, _collect_stderr env (fst answer) st1
               = (Raise UnicodeDecodeError, st1))
  /\ fst (_run_shell_command_in_qube env command true st)
     = Raise UnicodeDecodeError
  /\ classify (fl env) Classifying (line :: rest)
     = (fst (classify (fl env) Classifying rest),
        line ++ snd (classify (fl env) Classifying rest)).
Proof.
  cbv zeta. intros Hstderr Hline Hdec.
  assert (Hraise : forall st1,
             _collect_stderr
               env (fst (run_service (qube env) (service_name env command)
                                     (world st))) st1
             = (Raise UnicodeDecodeError, st1)).
  { intros st1. unfold _collect_stderr. rewrite Hstderr.
    cbn [_collect_stderr_loop negb].
    destruct line as [| b0 line']; [congruence |].
    now rewrite Hdec. }
  split; [exact Hraise | split].
  - now rewrite (streaming_after_stderr env command st _ _ (Hraise _)).
  - cbn [classify]. rewrite Hdec. cbn [option_map].
    now destruct (classify (fl env) Classifying rest).
Qed.

(** The entrypoint writes the byte 0xff and a newline on stderr. *)
Lemma undecodable_line_raises_witness :
  let env :=
    connection (a_qube quiet (reporting [[xff; x0a]; pyb "50.0" ++ LF] 0)
                       (exited 0))
               (work false true) in
  fst (run_entrypoint env (py "/run/qubes-update/agent/entrypoint.py") []
                      (entered env true))
  = Raise UnicodeDecodeError
  /\ snd (classify decimals Classifying [[xff; x0a]; pyb "50.0" ++ LF])
     = [xff; x0a].
Proof.
  intros env.
  set (path := py "/run/qubes-update/agent/entrypoint.py").
  set (st1 := snd (_run_shell_command_in_qube env (chmod_command path) false
                                              (entered env true))).
  destruct (undecodable_line_raises
              env (entrypoint_command env path []) st1
              [xff; x0a] [pyb "50.0" ++ LF]
              eq_refl ltac:(discriminate) eq_refl)
    as (_ & Hrun & Hspec).
  split.
  - unfold run_entrypoint.
    rewrite (bind_return _ _ (entered env true) (0%Z, []) st1 eq_refl).
    cbv beta iota zeta.
    change (show_progress (self env)) with true.
    destruct (_run_shell_command_in_qube
                env (entrypoint_command env path []) true st1)
      as [outcome st2] eqn:Hstep.
    cbn [fst] in Hrun. subst outcome.
    now rewrite (bind_raise _ _ _ _ _ Hstep).
  - change (fl env) with decimals in Hspec.
    exact (f_equal snd Hspec).
Defined.

(* ================================================================== *)
(** ** What the methods leave untouched *)

(** The wait strategy, exactly: the code and lines it returns, the world
    the qube is left in, the flag and the calls. *)
Lemma wait_step_exact env command st :
  exists lines,
    _run_shell_command_in_qube env command false st
    = (Return (reported (substrate_code env command false (world st)), lines),
       advance st (snd (run_with_args (qube env) command (world st)))
               (if (substrate_code env command false (world st) =? 100)%Z
                then true else status_notified st)
               (run_command_log env command :: qube_run_with_args command
                :: wait_tail env command (world st))).
Proof.
  unfold substrate_code, wait_tail, reported.
  destruct (run_with_args (qube env) command (world st))
    as [[err | [out errs]] w] eqn:H; cbn [fst snd].
  - destruct (returncode err =? 100)%Z eqn:Hcode.
    + apply Z.eqb_eq in Hcode.
      rewrite (wait_exits_100 _ _ _ _ _ H Hcode). now eexists.
    + apply Z.eqb_neq in Hcode.
      rewrite (wait_fails _ _ _ _ _ H Hcode). now eexists.
  - rewrite (wait_succeeds _ _ _ _ _ _ H). now eexists.
Qed.

Lemma advances_ret {env A} (a : A) : advances (@ret env A a).
Proof.
  intros st. exists (world st), (status_notified st), [].
  cbn. now rewrite advance_nothing.
Qed.

Lemma advances_raise {env A} (e : Exn) : advances (@raise env A e).
Proof.
  intros st. exists (world st), (status_notified st), [].
  cbn. now rewrite advance_nothing.
Qed.

Lemma advances_bind {env A B} (m : M env A) (k : A -> M env B) :
  advances m -> (forall a, advances (k a)) -> advances (bind m k).
Proof.
  intros Hm Hk st. destruct (Hm st) as (w & n & added & Hst).
  unfold bind. destruct (m st) as [[a | e] st1]; cbn [snd] in *; subst st1.
  - destruct (Hk a (advance st w n added)) as (w' & n' & added' & Hst').
    rewrite Hst', advance_advance. now do 3 eexists.
  - now do 3 eexists.
Qed.

Lemma advances_shell env command show :
  advances (_run_shell_command_in_qube env command show).
Proof.
  intros st. destruct show.
  - destruct (streaming_step env command st) as [values [H | [buf H]]];
      rewrite H; now do 3 eexists.
  - destruct (wait_step_exact env command st) as [lines H].
    rewrite H. now do 3 eexists.
Qed.

Lemma advances_copy env src dest :
  advances (_copy_file_from_dom0 env src dest).
Proof.
  intros st.
  destruct (copy_step env src dest st) as (code & message & command & H & _).
  rewrite H. now do 3 eexists.
Qed.

Lemma advances_archive env src_dir : advances (archive_agent env src_dir).
Proof.
  intros st. rewrite archive_agent_exact.
  destruct (__connected st).
  - destruct (mkdtemp (qube env) (world st)) as [[arch_dir | msg] w];
      [| cbn [snd]; now do 3 eexists].
    cbv zeta.
    destruct (make_archive (qube env) _ _ _ w) as [[[] | msg] w'];
      cbn [snd]; now do 3 eexists.
  - exists (world st), (status_notified st), [].
    now rewrite advance_nothing.
Qed.

Lemma advances_transfer_agent env src_dir :
  advances (transfer_agent env src_dir).
Proof.
  unfold transfer_agent.
  apply advances_bind; [apply advances_archive |]. intros [src_arch dest_arch].
  apply advances_bind; [apply advances_shell |]. intros [code lines].
  destruct (truthy code); [apply advances_ret |].
  apply advances_bind; [apply advances_copy |]. intros [code' message].
  cbv zeta. destruct (truthy (Z.max code code')); [apply advances_ret |].
  apply advances_bind; [apply advances_shell |]. intros [code'' lines''].
  apply advances_ret.
Qed.

Lemma advances_run_entrypoint env entrypoint_path agent_args :
  advances (run_entrypoint env entrypoint_path agent_args).
Proof.
  unfold run_entrypoint.
  apply advances_bind; [apply advances_shell |]. intros [code lines].
  apply advances_bind; [apply advances_shell |]. intros [code' lines'].
  apply advances_ret.
Qed.

Lemma advances_read_logs env : advances (read_logs env).
Proof.
  unfold read_logs.
  apply advances_bind; [apply advances_shell |]. intros [code lines].
  apply advances_ret.
Qed.

(* ================================================================== *)
(** ** Operations on a connection that is not open *)

(** C4, where the code leaves it.  On a connection that is not open
    (not entered yet, or already left) [transfer_agent] raises
    [AssertionError] at once and does nothing else; [read_logs] and
    [run_entrypoint] have no such assertion: [read_logs] sends its [cat]
    command and returns, and [run_entrypoint] sends its [chmod] command
    and goes on, never raising [AssertionError]. *)
Theorem only_transfer_asserts_connected env st :
  __connected st = false ->
  (forall src_dir,
      transfer_agent env src_dir st = (Raise AssertionError, st))
  /\ (exists result st',
         read_logs env st = (Return result, st')
         /\ calls st'
            = calls st ++ run_command_log env (cat_command env)
                       :: qube_run_with_args (cat_command env)
                       :: wait_tail env (cat_command env) (world st))
  /\ (forall entrypoint_path agent_args,
         exists outcome st' later,
           run_entrypoint env entrypoint_path agent_args st = (outcome, st')
           /\ outcome <> Raise AssertionError
           /\ calls st'
              = calls st
                ++ run_command_log env (chmod_command entrypoint_path)
                   :: qube_run_with_args (chmod_command entrypoint_path)
                   :: later).
Proof.
  intros Hclosed. split; [| split].
  - intros src_dir.
    unfold transfer_agent, archive_agent, bind, read, assert, raise.
    now rewrite Hclosed.
  - destruct (wait_step_exact env (cat_command env) st) as [lines H].
    unfold read_logs. cbv zeta.
    rewrite (bind_return _ _ _ _ _ H). cbv beta iota. unfold ret.
    now do 2 eexists.
  - intros entrypoint_path agent_args.
    destruct (wait_step_exact env (chmod_command entrypoint_path) st)
      as [lines H].
    unfold run_entrypoint. cbv zeta.
    rewrite (bind_return _ _ _ _ _ H). cbv beta iota.
    set (st1 := advance st _ _ _).
    set (command := entrypoint_command env entrypoint_path agent_args).
    destruct (show_progress (self env)).
    + destruct (streaming_step env command st1) as [values [Hs | [buf Hs]]].
      * rewrite (bind_raise _ _ _ _ _ Hs).
        do 3 eexists. split; [reflexivity |]. split; [discriminate |].
        unfold st1, advance. cbn [calls]. rewrite <- app_assoc.
        reflexivity.
      * rewrite (bind_return _ _ _ _ _ Hs). cbv beta iota. unfold ret.
        do 3 eexists. split; [reflexivity |]. split; [discriminate |].
        unfold st1, advance. cbn [calls]. rewrite <- app_assoc.
        reflexivity.
    + destruct (wait_step_exact env command st1) as [lines' Hw].
      rewrite (bind_return _ _ _ _ _ Hw). cbv beta iota. unfold ret.
      do 3 eexists. split; [reflexivity |]. split; [discriminate |].
      unfold st1, advance. cbn [calls]. rewrite <- app_assoc.
      reflexivity.
Qed.

(** A connection that was never entered: the transfer is refused, the
    logs are read all the same. *)
Lemma only_transfer_asserts_connected_witness :
  let env :=
    connection (a_qube (fun _ => inr (pyb "log line" ++ LF, [])) idle
                       (exited 0))
               (work false false) in
  fst (transfer_agent env (py "/usr/lib/agent") (__init__ env false))
  = Raise AssertionError
  /\ exists result st',
      read_logs env (__init__ env false) = (Return result, st')
      /\ commands (calls st') = [cat_command env].
Proof.
  intros env.
  destruct (only_transfer_asserts_connected env (__init__ env false) eq_refl)
    as (Htransfer & (result & st' & Hread & Hcalls) & _).
  split.
  - now rewrite Htransfer.
  - exists result, st'. split; [exact Hread |].
    rewrite Hcalls. reflexivity.
Defined.

(* ================================================================== *)
(** ** The teardown *)

Lemma bind_read {env A B} (f : State env -> A) (k : A -> M env B) st :
  bind (read f) k st = k (f st) st.
Proof. reflexivity. Qed.

(** The three parts of [__exit__], each from the state it starts in. *)
Lemma exit_final_status env (notified : bool) st :
  (if negb notified
   then emit (notifier_put (done (qube_name (self env)) SUCCESS))
   else ret tt) st
  = (Return tt,
     advance st (world st) (status_notified st)
             (final_status_calls env notified)).
Proof.
  unfold final_status_calls. destruct notified; cbn [negb].
  - unfold ret. now rewrite advance_nothing.
  - apply emit_advance.
Qed.

Lemma exit_cleanup env st :
  (if cleanup (self env)
   then bind (emit (logger_info (py "Remove " ++ dest_dir (self env))))
             (fun _ =>
                bind (_run_shell_command_in_qube env (rm_command env) false)
                     (fun _ => ret tt))
   else ret tt) st
  = (Return tt,
     advance st (world_after_cleanup env (world st))
             (if cleanup (self env)
                 && (substrate_code env (rm_command env) false (world st)
                     =? 100)%Z
              then true else status_notified st)
             (cleanup_calls env (world st))).
Proof.
  unfold cleanup_calls, world_after_cleanup.
  destruct (cleanup (self env)); cbn [andb].
  - rewrite bind_emit.
    destruct (wait_step_exact
                env (rm_command env)
                (advance st (world st) (status_notified st)
                         [logger_info (py "Remove " ++ dest_dir (self env))]))
      as [lines Hrm].
    rewrite (bind_return _ _ _ _ _ Hrm). unfold ret.
    now rewrite advance_advance.
  - unfold ret. now rewrite advance_nothing.
Qed.

Lemma exit_shutdown env (stop : bool) st :
  (if stop
   then bind (emit (logger_info (py "Shutdown " ++ qube_name (self env))))
             (fun _ =>
                bind (emit qube_shutdown)
                     (fun _ => ask (fun w => (tt, shutdown (qube env) w))))
   else ret tt) st
  = (Return tt,
     advance st (if stop then shutdown (qube env) (world st) else world st)
             (status_notified st)
             (if stop
              then [logger_info (py "Shutdown " ++ qube_name (self env));
                    qube_shutdown]
              else [])).
Proof.
  destruct stop.
  - rewrite bind_emit, bind_emit, advance_advance. reflexivity.
  - unfold ret. now rewrite advance_nothing.
Qed.

(** [__exit__] always returns, and leaves the connection torn down. *)
Lemma exit_tears_down env st :
  __exit__ env st = (Return tt, torn_down st).
Proof.
  unfold __exit__. rewrite bind_read.
  rewrite (bind_return _ _ _ _ _ (exit_final_status env _ st)).
  rewrite (bind_return _ _ _ _ _ (exit_cleanup env _)).
  rewrite !bind_read.
  rewrite (bind_return _ _ _ _ _ (exit_shutdown env _ _)).
  unfold torn_down, shutdown_calls, shuts_down, set_connected, advance.
  cbn [world status_notified _initially_running __connected calls].
  rewrite <- !app_assoc.
  destruct (is_running (qube env) (world_after_cleanup env (world st))
            && negb (truthy_opt (_initially_running st))); reflexivity.
Qed.

Lemma enter_records env st :
  __enter__ env st
  = (Return tt,
     mkState env (world st) (status_notified st)
             (Some (is_running (qube env) (world st))) true (calls st)).
Proof. reflexivity. Qed.

Lemma events_cleanup_calls env w :
  events (cleanup_calls env w)
  = if cleanup (self env)
       && (substrate_code env (rm_command env) false w =? 100)%Z
    then [done (qube_name (self env)) NO_UPDATES]
    else [].
Proof.
  unfold cleanup_calls, substrate_code, wait_tail.
  destruct (cleanup (self env)); [| reflexivity]. cbn [andb].
  rewrite events_app. cbn [events app run_command_log].
  destruct (fst (run_with_args (qube env) (rm_command env) w)) as [err | out];
    [| reflexivity].
  destruct (returncode err =? 100)%Z; reflexivity.
Qed.

Lemma commands_cleanup_calls env w :
  commands (cleanup_calls env w)
  = if cleanup (self env) then [rm_command env] else [].
Proof.
  unfold cleanup_calls, wait_tail.
  destruct (cleanup (self env)); [| reflexivity].
  rewrite commands_app. cbn [commands app run_command_log].
  destruct (fst (run_with_args (qube env) (rm_command env) w)) as [err | out];
    [| reflexivity].
  destruct (returncode err =? 100)%Z; reflexivity.
Qed.

(** C2, as amended.  However the body of a session ends (it returns, it
    raises, or it does nothing at all), [__exit__] runs, the result or
    the exception of the body goes on to the caller, and the calls of the
    teardown come after those of the body in this order: one
    Done/Success event if the flag [status_notified] is not set, and none
    otherwise; if [cleanup] is set, the [rm -r dest_dir] command (the
    only command of the teardown), with what the wait strategy calls
    after it; the shutdown, exactly when the qube runs after that and
    was not running at entry.  The connection is closed at the end.
    A session that does nothing and raises nothing puts Done/Success
    first, and it is its only event unless [cleanup] is set and the
    removal exits with 100: then Done/NoUpdates follows. *)
Theorem teardown_on_every_exit env (A : Type) (body : M env A) st :
  advances body ->
  let st0 := snd (__enter__ env st) in
  let result := fst (body st0) in
  let st1 := snd (body st0) in
  let running_at_entry := is_running (qube env) (world st) in
  let w := world_after_cleanup env (world st1) in
  let stop := is_running (qube env) w && negb running_at_entry in
  exists final,
    with_connection env body st = (result, final)
    /\ calls final
       = calls st1
         ++ final_status_calls env (status_notified st1)
         ++ cleanup_calls env (world st1)
         ++ (if stop
             then [logger_info (py "Shutdown " ++ qube_name (self env));
                   qube_shutdown]
             else [])
    /\ events (final_status_calls env (status_notified st1))
       = (if status_notified st1 then []
          else [done (qube_name (self env)) SUCCESS])
    /\ commands (cleanup_calls env (world st1))
       = (if cleanup (self env) then [rm_command env] else [])
    /\ existsb is_shutdown (cleanup_calls env (world st1)) = false
    /\ world final = (if stop then shutdown (qube env) w else w)
    /\ __connected final = false
    /\ (forall x, body = ret x -> status_notified st = false ->
        events (calls final)
        = events (calls st)
          ++ done (qube_name (self env)) SUCCESS
             :: (if cleanup (self env)
                    && (substrate_code env (rm_command env) false (world st)
                        =? 100)%Z
                 then [done (qube_name (self env)) NO_UPDATES]
                 else [])).
Proof.
  intros Hbody. cbv zeta.
  rewrite (enter_records env st). cbn [snd].
  set (st0 := mkState env (world st) (status_notified st)
                      (Some (is_running (qube env) (world st))) true
                      (calls st)).
  destruct (Hbody st0) as (w1 & n1 & added & Hst1).
  exists (torn_down (snd (body st0))). split.
  - unfold with_connection.
    rewrite (bind_return _ _ _ _ _ (enter_records env st)). fold st0.
    destruct (body st0) as [result st1]. cbn [fst snd].
    now rewrite exit_tears_down.
  - assert (Hrec : _initially_running (snd (body st0))
                   = Some (is_running (qube env) (world st)))
      by (now rewrite Hst1).
    unfold torn_down, shutdown_calls, shuts_down.
    cbn [calls world __connected]. rewrite Hrec. cbn [truthy_opt].
    replace (negb (if is_running (qube env) (world st) then true else false))
      with (negb (is_running (qube env) (world st)))
      by (now destruct (is_running (qube env) (world st))).
    split; [reflexivity |].
    split; [unfold final_status_calls;
            now destruct (status_notified (snd (body st0))) |].
    split; [apply commands_cleanup_calls |].
    split.
    { unfold cleanup_calls, wait_tail.
      destruct (cleanup (self env)); [| reflexivity].
      cbn [app existsb is_shutdown run_command_log orb].
      destruct (fst (run_with_args (qube env) (rm_command env)
                                   (world (snd (body st0)))))
        as [err | out]; [| reflexivity].
      destruct (returncode err =? 100)%Z; reflexivity. }
    split; [reflexivity |].
    split; [reflexivity |].
    intros x -> Hflag. cbn [ret snd calls status_notified world st0].
    rewrite Hflag.
    rewrite !events_app, events_cleanup_calls.
    cbn [final_status_calls events app].
    destruct (is_running (qube env) (world_after_cleanup env (world st))
              && negb (is_running (qube env) (world st)));
      cbn [events]; now rewrite app_nil_r.
Qed.

(** A session on a stopped qube, with cleanup: the agent is transferred,
    then the body raises.  The exception reaches the caller, Done/Success
    is the only event, the directory is removed and the qube, started by
    the transfer, is shut down. *)
Lemma teardown_on_every_exit_witness :
  let env := connection (a_qube quiet idle (exited 0)) (work true false) in
  let body :=
    bind (transfer_agent env (py "/usr/lib/agent"))
         (fun _ => @raise env unit (OtherError (py "interrupted"))) in
  let run := with_connection env body (__init__ env false) in
  fst run = Raise (OtherError (py "interrupted"))
  /\ events (calls (snd run)) = [done (py "work") SUCCESS]
  /\ commands (calls (snd run))
     = [mkdir_command env;
        tar_command env (py "/run/qubes-update/agent.tar.gz");
        rm_command env]
  /\ existsb is_shutdown (calls (snd run)) = true
  /\ world (snd run) = false
  /\ __connected (snd run) = false.
Proof.
  intros env body run.
  assert (Hbody : advances body).
  { apply advances_bind; [apply advances_transfer_agent |].
    intros _. apply advances_raise. }
  destruct (teardown_on_every_exit env unit body (__init__ env false) Hbody)
    as (final & Hrun & Hcalls & _ & _ & _ & Hworld & Hclosed & _).
  assert (Hfinal : snd run = final) by (unfold run; now rewrite Hrun).
  rewrite Hfinal.
  split. { unfold run. rewrite Hrun. vm_compute. reflexivity. }
  split. { rewrite Hcalls. vm_compute. reflexivity. }
  split. { rewrite Hcalls. vm_compute. reflexivity. }
  split. { rewrite Hcalls. vm_compute. reflexivity. }
  split. { rewrite Hworld. vm_compute. reflexivity. }
  exact Hclosed.
Defined.

(** C2 as stated fails in its last sentence: a session with cleanup that
    does nothing and raises nothing, on a qube where [rm] exits with
    100, puts two events, Done/Success and then Done/NoUpdates. *)
Lemma idle_session_emits_two_events :
  let env :=
    connection (a_qube always_100 idle (exited 0)) (work true false) in
  let run := with_connection env (ret tt) (__init__ env true) in
  fst run = Return tt
  /\ commands (calls (snd run)) = [rm_command env]
  /\ events (calls (snd run))
     = [done (py "work") SUCCESS; done (py "work") NO_UPDATES].
Proof.
  cbv zeta. repeat split; vm_compute; reflexivity.
Qed.

(* ================================================================== *)
(** ** The two reading loops *)

Lemma collect_stdout_loop_concat (lines : list bytes) :
  forall buf,
    _collect_stdout_loop lines buf = buf ++ List.concat (until_eof lines).
Proof.
  induction lines as [| line rest IH]; intros buf; cbn.
  - now rewrite app_nil_r.
  - destruct line as [| b0 line']; [now rewrite app_nil_r |].
    rewrite IH. cbn [List.concat]. now rewrite <- app_assoc.
Qed.

Lemma until_eof_all (lines : list bytes) :
  Forall (fun l => l <> []) lines -> until_eof lines = lines.
Proof.
  induction 1 as [| line rest Hline _ IH]; [reflexivity |].
  destruct line; [congruence |]. cbn. now rewrite IH.
Qed.

(** X1.  [_collect_stdout] returns the bytes of the lines read before
    the first empty one, in order and unchanged; what the pipe would
    give after an empty read is never looked at, and when no line is
    empty the result is all the lines put end to end. *)
Theorem collect_stdout_until_eof (proc : Process) :
  _collect_stdout proc = List.concat (until_eof (stdout proc))
  /\ (forall before after,
         stdout proc = before ++ [] :: after ->
         Forall (fun l => l <> []) before ->
         _collect_stdout proc = List.concat before)
  /\ (Forall (fun l => l <> []) (stdout proc) ->
      _collect_stdout proc = List.concat (stdout proc)).
Proof.
  unfold _collect_stdout. rewrite collect_stdout_loop_concat. cbn [app].
  split; [reflexivity | split].
  - intros before after -> Hbefore. f_equal.
    induction Hbefore as [| line rest Hline _ IH]; [reflexivity |].
    destruct line; [congruence |]. cbn. now rewrite IH.
  - intros Hall. now rewrite until_eof_all.
Qed.

Lemma collect_stdout_until_eof_witness :
  let proc :=
    {| stderr := [];
       stdout := [pyb "one" ++ LF; pyb "two" ++ LF; []; pyb "lost" ++ LF];
       proc_returncode := 0 |} in
  _collect_stdout proc = pyb "one" ++ LF ++ pyb "two" ++ LF.
Proof.
  intros proc.
  destruct (collect_stdout_until_eof proc) as (_ & Hcut & _).
  rewrite (Hcut [pyb "one" ++ LF; pyb "two" ++ LF] [pyb "lost" ++ LF] eq_refl).
  - reflexivity.
  - repeat constructor; discriminate.
Defined.

Lemma collect_stderr_loop_latched env (lines : list bytes) :
  forall buf st,
    _collect_stderr_loop env lines buf true st
    = (Return (buf ++ List.concat (until_eof lines)), st).
Proof.
  induction lines as [| line rest IH]; intros buf st; cbn.
  - now rewrite app_nil_r.
  - destruct line as [| b0 line']; [now rewrite app_nil_r |].
    rewrite IH. cbn [List.concat]. now rewrite <- app_assoc.
Qed.

(** X2.  Once the flag [progress_finished] is set, the loop of
    [_collect_stderr] decodes nothing: it cannot raise, it puts no event
    and changes nothing in the connection, and it appends to the buffer
    the lines read before the first empty one, as they are, valid UTF-8
    or not, numbers or not. *)
Theorem latched_stderr_is_buffered env (lines : list bytes) buf st :
  _collect_stderr_loop env lines buf true st
  = (Return (buf ++ List.concat (until_eof lines)), st)
  /\ (Forall (fun l => l <> []) lines ->
      _collect_stderr_loop env lines buf true st
      = (Return (buf ++ List.concat lines), st)).
Proof.
  split; [apply collect_stderr_loop_latched |].
  intros Hall. rewrite collect_stderr_loop_latched.
  now rewrite until_eof_all.
Qed.

(** After 100.0 a line of bytes that are not UTF-8 is kept as it is. *)
Lemma latched_stderr_is_buffered_witness :
  let env := connection (a_qube quiet idle (exited 0)) (work false false) in
  _collect_stderr_loop env [[xff; x0a]; pyb "99.0" ++ LF] [] true
                       (entered env true)
  = (Return ([xff; x0a] ++ pyb "99.0" ++ LF), entered env true).
Proof.
  intros env.
  destruct (latched_stderr_is_buffered env [[xff; x0a]; pyb "99.0" ++ LF] []
                                       (entered env true)) as [_ Hall].
  rewrite Hall; [reflexivity |].
  repeat constructor; discriminate.
Defined.

(** The values forwarded by the loop: none of them but the last can be
    equal to 100. *)
Lemma collect_stderr_loop_values env lines :
  forall buf st,
  exists outcome values,
    _collect_stderr_loop env lines buf false st
    = (outcome,
       advance st (world st) (status_notified st) (pending_puts env values))
    /\ Forall (fun p => float_eq_100 (fl env) p = false)
              (List.removelast values).
Proof.
  induction lines as [| line rest IH]; intros buf st.
  - exists (Return buf), []. cbn. rewrite advance_nothing. now split.
  - cbn [_collect_stderr_loop]. destruct line as [| b0 line'].
    + exists (Return buf), []. cbn. rewrite advance_nothing. now split.
    + cbn [negb].
      destruct (decode_utf8 (b0 :: line')) as [decoded |].
      * destruct (float_of_str (fl env)
                    (_string_sanitization (rstrip decoded)))
          as [progress |]; [| apply IH].
        rewrite bind_emit.
        destruct (float_eq_100 (fl env) progress) eqn:H100.
        -- rewrite collect_stderr_loop_latched.
           eexists. exists [progress]. split; [reflexivity | constructor].
        -- match goal with
           | |- context [_collect_stderr_loop env rest buf false ?s] =>
             destruct (IH buf s) as (outcome & values & Heq & Hvalues)
           end.
           exists outcome, (progress :: values).
           rewrite Heq, advance_advance. split; [reflexivity |].
           destruct values as [| v values']; [constructor |].
           cbn [List.removelast] in *. constructor; assumption.
      * exists (Raise UnicodeDecodeError), []. cbn.
        rewrite advance_nothing. now split.
Qed.

(** X3.  [_collect_stderr] calls nothing but the notifier, with Pending
    events; when one of them carries a value equal to 100 it is the last
    one: no progress is forwarded after 100, whether the reading returns
    or raises. *)
Theorem no_progress_after_100 env (proc : Process) st :
  exists outcome values,
    _collect_stderr env proc st
    = (outcome,
       advance st (world st) (status_notified st) (pending_puts env values))
    /\ events (pending_puts env values)
       = List.map (pending (qube_name (self env))) values
    /\ (forall before p after,
           values = before ++ p :: after ->
           float_eq_100 (fl env) p = true -> after = []).
Proof.
  unfold _collect_stderr.
  destruct (collect_stderr_loop_values env (stderr proc) [] st)
    as (outcome & values & Heq & Hvalues).
  exists outcome, values. split; [exact Heq | split].
  - clear. induction values as [| v values IH]; [reflexivity |].
    cbn. now rewrite <- IH.
  - intros before p after -> H100.
    destruct after as [| q after']; [reflexivity | exfalso].
    rewrite Forall_forall in Hvalues.
    assert (Hin : In p (List.removelast (before ++ p :: q :: after'))).
    { rewrite removelast_app by discriminate. apply in_or_app. right.
      cbn. now left. }
    specialize (Hvalues p Hin). congruence.
Qed.

(** The six lines of the specification's example, all valid UTF-8. *)
Lemma collect_stderr_classifies_witness :
  let env := connection (a_qube quiet idle (exited 0)) (work false false) in
  _collect_stderr_loop env progress_lines [] (latched Classifying)
                       (entered env true)
  = (Return (pyb "building..." ++ LF ++ pyb "99.0" ++ LF ++ pyb "done" ++ LF),
     advance (entered env true) true false
             (pending_puts env [(125%N, 1%nat); (500%N, 1%nat);
                                (1000%N, 1%nat)])).
Proof.
  intros env.
  rewrite (collect_stderr_classifies env progress_lines Classifying []
                                     (entered env true)).
  - reflexivity.
  - repeat constructor; discriminate.
  - repeat constructor; discriminate.
Defined.

(* ================================================================== *)
(** ** The collected lines *)

Lemma splitlines_app (a b : str) :
  closes_before a b = true ->
  splitlines (a ++ b) = splitlines a ++ splitlines b.
Proof.
  destruct a as [| c rest] eqn:Ha; [reflexivity |].
  rewrite <- Ha. intros Hclose.
  assert (Hne : a <> []) by (rewrite Ha; discriminate).
  unfold closes_before in Hclose. rewrite Ha in Hclose.
  rewrite <- Ha in Hclose.
  apply andb_true_iff in Hclose. destruct Hclose as [Hbreak Hcrlf].
  pose proof (app_removelast_last 0%N Hne) as Hsplit.
  set (t := List.last a 0%N) in *.
  set (front := List.removelast a) in *.
  unfold splitlines.
  rewrite Hsplit at 1. rewrite <- app_assoc. cbn [app].
  rewrite splitlines_from_break; [| discriminate | exact Hbreak].
  rewrite <- Hsplit. f_equal.
  destruct (t =? 13)%N eqn:Ht; [| reflexivity].
  apply splitlines_from_after_cr.
  cbn [andb negb] in Hcrlf. intros Hhd. rewrite Hhd in Hcrlf.
  discriminate.
Qed.

(** X5.  [_collect_output] gives the lines of stdout and then the lines
    of stderr, each sanitized, when the text of stdout is empty or ends
    with a line boundary that an LF at the start of stderr does not
    extend; an empty stderr adds nothing, whatever stdout is. *)
Theorem collect_output_stdout_then_stderr (out err : bytes) :
  (closes_before (decode_ascii_ignore out) (decode_ascii_ignore err) = true ->
   _collect_output out err = payload_lines out ++ payload_lines err)
  /\ _collect_output out [] = payload_lines out
  /\ _collect_output [] err = payload_lines err.
Proof.
  unfold _collect_output, payload_lines. split; [| split].
  - intros Hclose. rewrite splitlines_app by exact Hclose. apply map_app.
  - cbn [decode_ascii_ignore List.filter List.map]. now rewrite app_nil_r.
  - reflexivity.
Qed.

Lemma collect_output_stdout_then_stderr_witness :
  _collect_output (pyb "Reading packages" ++ [x0d; x0a] ++ pyb "done" ++ LF)
                  (pyb "warning: slow mirror" ++ LF)
  = [py "Reading packages"; py "done"; py "warning: slow mirror"].
Proof.
  destruct (collect_output_stdout_then_stderr
              (pyb "Reading packages" ++ [x0d; x0a] ++ pyb "done" ++ LF)
              (pyb "warning: slow mirror" ++ LF)) as (Hlines & _ & _).
  rewrite Hlines; reflexivity.
Defined.

Lemma sanitization_printable (s : str) :
  Forall printable (_string_sanitization s).
Proof.
  apply Forall_forall. intros c Hc.
  apply filter_In in Hc. destruct Hc as [_ Hc].
  apply andb_true_iff in Hc. destruct Hc as [Hlo Hhi].
  split; [now apply N.leb_le | now apply N.leb_le].
Qed.

Lemma collect_output_printable (out err : bytes) :
  Forall (Forall printable) (_collect_output out err).
Proof.
  unfold _collect_output. apply Forall_forall. intros line Hline.
  apply in_map_iff in Hline. destruct Hline as (raw & <- & _).
  apply sanitization_printable.
Qed.

(** What a method returned, read back from a sequence of two steps. *)
Lemma bind_returned {env A B} (m : M env A) (k : A -> M env B) st r st' :
  bind m k st = (Return r, st') ->
  exists a st1, m st = (Return a, st1) /\ k a st1 = (Return r, st').
Proof.
  unfold bind. destruct (m st) as [[a | e] st1]; [| discriminate].
  intros H. now exists a, st1.
Qed.

(** The code and the lines one command returns, in both strategies: the
    reported code of the substrate, and lines made by [_collect_output]. *)
Lemma shell_returned env command show st code lines st' :
  _run_shell_command_in_qube env command show st = (Return (code, lines), st') ->
  code = reported (substrate_code env command show (world st))
  /\ exists out err, lines = _collect_output out err.
Proof.
  intros Hrun. destruct show.
  - destruct (streaming_step env command st) as [values [H | [buf H]]];
      rewrite H in Hrun; [discriminate |].
    injection Hrun as <- <- _. split; [reflexivity | now do 2 eexists].
  - unfold substrate_code.
    destruct (run_with_args (qube env) command (world st))
      as [[failure | [out errs]] w] eqn:Hanswer; cbn [fst].
    + unfold reported.
      destruct (returncode failure =? 100)%Z eqn:Hcode.
      * apply Z.eqb_eq in Hcode.
        rewrite (wait_exits_100 _ _ _ _ _ Hanswer Hcode) in Hrun.
        injection Hrun as <- <- _. split; [reflexivity | now do 2 eexists].
      * apply Z.eqb_neq in Hcode.
        rewrite (wait_fails _ _ _ _ _ Hanswer Hcode) in Hrun.
        injection Hrun as <- <- _. split; [reflexivity | now do 2 eexists].
    + rewrite (wait_succeeds _ _ _ _ _ _ Hanswer) in Hrun.
      injection Hrun as <- <- _. split; [reflexivity | now do 2 eexists].
Qed.

Lemma run_entrypoint_returned env entrypoint_path agent_args st result st' :
  run_entrypoint env entrypoint_path agent_args st = (Return result, st') ->
  exists A st1 B,
    _run_shell_command_in_qube env (chmod_command entrypoint_path) false st
    = (Return A, st1)
    /\ _run_shell_command_in_qube
         env (entrypoint_command env entrypoint_path agent_args)
         (show_progress (self env)) st1
       = (Return B, st')
    /\ result = combine A B.
Proof.
  unfold run_entrypoint. cbv zeta. intros Hrun.
  apply bind_returned in Hrun. destruct Hrun as ([codeA linesA] & st1 & HA & Hrun).
  apply bind_returned in Hrun. destruct Hrun as ([codeB linesB] & st2 & HB & Hrun).
  injection Hrun as <- <-.
  now exists (codeA, linesA), st1, (codeB, linesB).
Qed.

Lemma read_logs_returned env st result st' :
  read_logs env st = (Return result, st') ->
  _run_shell_command_in_qube env (cat_command env) false st
  = (Return result, st').
Proof.
  unfold read_logs. cbv zeta. intros Hrun.
  apply bind_returned in Hrun. destruct Hrun as ([code lines] & st1 & H & Hrun).
  injection Hrun as <- <-. exact H.
Qed.

(** X6.  Every line that [read_logs] or [run_entrypoint] returns holds
    only code points from 0x20 to 0x7e, whatever bytes the qube wrote on
    stdout and stderr, in the wait strategy and in the streaming one. *)
Theorem returned_lines_are_printable env :
  (forall st code lines st',
      read_logs env st = (Return (code, lines), st') ->
      Forall (Forall printable) lines)
  /\ (forall entrypoint_path agent_args st code lines st',
         run_entrypoint env entrypoint_path agent_args st
         = (Return (code, lines), st') ->
         Forall (Forall printable) lines).
Proof.
  split.
  - intros st code lines st' Hrun. apply read_logs_returned in Hrun.
    destruct (shell_returned _ _ _ _ _ _ _ Hrun) as (_ & out & err & ->).
    apply collect_output_printable.
  - intros entrypoint_path agent_args st code lines st' Hrun.
    destruct (run_entrypoint_returned _ _ _ _ _ _ Hrun)
      as ([codeA linesA] & st1 & [codeB linesB] & HA & HB & Hresult).
    injection Hresult as _ ->.
    destruct (shell_returned _ _ _ _ _ _ _ HA) as (_ & outA & errA & ->).
    destruct (shell_returned _ _ _ _ _ _ _ HB) as (_ & outB & errB & ->).
    apply Forall_app. split; apply collect_output_printable.
Qed.

(** The log of the qube holds an escape sequence and a byte above 0x7f:
    neither reaches the caller. *)
Lemma returned_lines_are_printable_witness :
  let env :=
    connection (a_qube (fun _ => inr (pyb "ok" ++ [x1b] ++ pyb "[31m"
                                          ++ [xc3; xa9] ++ LF, []))
                       idle (exited 0))
               (work false false) in
  exists st',
    read_logs env (entered env true) = (Return (0%Z, [py "ok[31m"]), st')
    /\ Forall (Forall printable) [py "ok[31m"].
Proof.
  intros env.
  destruct (returned_lines_are_printable env) as [Hlogs _].
  eexists. split; [reflexivity |].
  exact (Hlogs (entered env true) 0%Z [py "ok[31m"] _ eq_refl).
Defined.

(* ================================================================== *)
(** ** The codes the methods return *)

Lemma reported_not_100 (code : Z) : reported code <> 100%Z.
Proof.
  unfold reported. destruct (code =? 100)%Z eqn:H; [discriminate |].
  now apply Z.eqb_neq.
Qed.

Lemma truthy_zero (n : Z) : truthy n = false -> n = 0%Z.
Proof.
  unfold truthy. intros H. apply negb_false_iff in H. now apply Z.eqb_eq.
Qed.

(** [transfer_agent] read back from what it returned: the steps that
    ran and the result they give. *)
Lemma transfer_agent_returned env src_dir st result st' :
  transfer_agent env src_dir st = (Return result, st') ->
  exists src_arch dest_arch st1 A st2,
    archive_agent env src_dir st = (Return (src_arch, dest_arch), st1)
    /\ _run_shell_command_in_qube env (mkdir_command env) false st1
       = (Return A, st2)
    /\ (fst A <> 0%Z /\ result = A /\ st' = st2
        \/ fst A = 0%Z
           /\ exists B st3,
               _copy_file_from_dom0 env src_arch dest_arch st2
               = (Return B, st3)
               /\ (fst B <> 0%Z
                   /\ result = combine A (fst B, chars (snd B))
                   /\ st' = st3
                   \/ fst B = 0%Z
                      /\ exists C,
                          _run_shell_command_in_qube
                            env (tar_command env dest_arch) false st3
                          = (Return C, st')
                          /\ result
                             = combine (combine A (fst B, chars (snd B)))
                                       C)).
Proof.
  unfold transfer_agent. intros Hrun.
  apply bind_returned in Hrun.
  destruct Hrun as ([src_arch dest_arch] & st1 & Harch & Hrun).
  cbv zeta in Hrun. apply bind_returned in Hrun.
  destruct Hrun as ([codeA linesA] & st2 & HA & Hrun).
  exists src_arch, dest_arch, st1, (codeA, linesA), st2.
  split; [exact Harch | split; [exact HA |]]. cbn [fst snd].
  destruct (truthy codeA) eqn:HtA.
  - left. injection Hrun as <- <-.
    split; [| now split]. intros ->. discriminate.
  - right. apply truthy_zero in HtA. subst codeA. split; [reflexivity |].
    apply bind_returned in Hrun.
    destruct Hrun as ([codeB outB] & st3 & HB & Hrun).
    exists (codeB, outB), st3. split; [exact HB |]. cbn [fst snd].
    destruct (copy_step_calls _ _ _ _ _ _ HB) as [_ Hvalue].
    cbn [fst snd] in Hvalue.
    destruct Hvalue as [[-> _] | ->].
    + right. split; [reflexivity |].
      change (truthy (Z.max 0 0)) with false in Hrun. cbv iota in Hrun.
      apply bind_returned in Hrun.
      destruct Hrun as ([codeC linesC] & st4 & HC & Hrun).
      injection Hrun as <- <-. now exists (codeC, linesC).
    + left. change (truthy (Z.max 0 1)) with true in Hrun. cbv iota in Hrun.
      injection Hrun as <- <-. split; [discriminate | now split].
Qed.

Lemma shell_code_not_100 env command show st code lines st' :
  _run_shell_command_in_qube env command show st
  = (Return (code, lines), st') ->
  code <> 100%Z.
Proof.
  intros Hrun. destruct (shell_returned _ _ _ _ _ _ _ Hrun) as [-> _].
  apply reported_not_100.
Qed.

(** X7.  No method returns the exit code 100: [read_logs],
    [run_entrypoint] and [transfer_agent] report a command that exits
    with 100 as 0, and a copy that exits with 100 as 1. *)
Theorem no_method_returns_100 env :
  (forall st code lines st',
      read_logs env st = (Return (code, lines), st') -> code <> 100%Z)
  /\ (forall entrypoint_path agent_args st code lines st',
         run_entrypoint env entrypoint_path agent_args st
         = (Return (code, lines), st') ->
         code <> 100%Z)
  /\ (forall src_dir st code lines st',
         transfer_agent env src_dir st = (Return (code, lines), st') ->
         code <> 100%Z).
Proof.
  split; [| split].
  - intros st code lines st' Hrun. apply read_logs_returned in Hrun.
    exact (shell_code_not_100 _ _ _ _ _ _ _ Hrun).
  - intros entrypoint_path agent_args st code lines st' Hrun.
    destruct (run_entrypoint_returned _ _ _ _ _ _ Hrun)
      as ([codeA linesA] & st1 & [codeB linesB] & HA & HB & Hresult).
    injection Hresult as -> _.
    pose proof (shell_code_not_100 _ _ _ _ _ _ _ HA).
    pose proof (shell_code_not_100 _ _ _ _ _ _ _ HB).
    lia.
  - intros src_dir st code lines st' Hrun.
    destruct (transfer_agent_returned _ _ _ _ _ Hrun)
      as (src_arch & dest_arch & st1 & [codeA linesA] & st2 & _ & HA & Hcase).
    pose proof (shell_code_not_100 _ _ _ _ _ _ _ HA) as HnA.
    cbn [fst snd] in Hcase.
    destruct Hcase as [(_ & Hres & _) | (-> & [codeB outB] & st3 & HB & Hcase)].
    + injection Hres as -> _. exact HnA.
    + destruct (copy_step_calls _ _ _ _ _ _ HB) as [_ Hvalue].
      cbn [fst snd] in Hvalue, Hcase.
      destruct Hcase as [(_ & Hres & _) | (-> & [codeC linesC] & HC & Hres)].
      * injection Hres as -> _. destruct Hvalue as [[-> _] | ->]; discriminate.
      * injection Hres as -> _.
        pose proof (shell_code_not_100 _ _ _ _ _ _ _ HC). cbn. lia.
Qed.

(** Both commands of [run_entrypoint] exit with 100: 0 is returned. *)
Lemma no_method_returns_100_witness :
  let env :=
    connection (a_qube always_100 idle (exited 0)) (work false false) in
  exists lines st',
    run_entrypoint env (py "/run/qubes-update/agent/entrypoint.py") []
                   (entered env true)
    = (Return (0%Z, lines), st')
    /\ 0%Z <> 100%Z.
Proof.
  intros env.
  destruct (no_method_returns_100 env) as (_ & Hrun & _).
  assert (H : exists lines st',
             run_entrypoint env (py "/run/qubes-update/agent/entrypoint.py")
                            [] (entered env true)
             = (Return (0%Z, lines), st'))
    by (eexists; eexists; cbv; reflexivity).
  destruct H as (lines & st' & H).
  exists lines, st'. split; [exact H | exact (Hrun _ _ _ _ _ _ H)].
Defined.

(* ================================================================== *)
(** ** The copy and the order of the steps *)

(** The copy, from what its process did. *)
Lemma copy_step_exact env src dest st :
  let answer := popen_stdin (qube env) (copy_command env dest) src (world st) in
  _copy_file_from_dom0 env src dest st
  = (Return match fst answer with
            | os_error msg => (1%Z, msg)
            | exited ret_code =>
              if (ret_code =? 0)%Z then (0%Z, [])
              else (1%Z, py "Command returns code: " ++ str_of_int ret_code)
            end,
     advance st (snd answer) (status_notified st)
             [logger_debug (py "run command: "
                            ++ join (py " ") (copy_command env dest)
                            ++ py " < " ++ src);
              os_popen (copy_command env dest) src]).
Proof.
  cbv zeta. unfold _copy_file_from_dom0. cbv zeta.
  change ([py "qvm-run"; py "--user=root"; py "--pass-io";
           qube_name (self env)] ++ [join (py " ") [py "cat"; py ">"; dest]])
    with (copy_command env dest).
  rewrite bind_emit, bind_emit, bind_ask, !advance_advance.
  cbn [world status_notified advance app].
  destruct (fst (popen_stdin (qube env) (copy_command env dest) src (world st)))
    as [msg | ret_code]; [reflexivity |].
  unfold truthy. now destruct (ret_code =? 0)%Z.
Qed.

(** X8.  [_copy_file_from_dom0] returns 0 with an empty message when
    its process exits with 0, and 1 otherwise: with the [str] of the
    [OSError], or with [Command returns code: N] for an exit code N,
    100 included.  Its only calls are its debug line and the [Popen] in
    dom0: it asks nothing of the qube handle (no [run_with_args], no
    [run_service], no [shutdown]), puts no status event and leaves the
    flag [status_notified] alone. *)
Theorem copy_reports_0_or_1 env src dest st :
  let outcome :=
    fst (popen_stdin (qube env) (copy_command env dest) src (world st)) in
  exists code message st',
    _copy_file_from_dom0 env src dest st = (Return (code, message), st')
    /\ calls st'
       = calls st
         ++ [logger_debug (py "run command: "
                           ++ join (py " ") (copy_command env dest)
                           ++ py " < " ++ src);
             os_popen (copy_command env dest) src]
    /\ (code = 0%Z /\ message = [] /\ outcome = exited 0
        \/ code = 1%Z /\ outcome <> exited 0)
    /\ (forall ret_code,
           outcome = exited ret_code -> ret_code <> 0%Z ->
           message = py "Command returns code: " ++ str_of_int ret_code)
    /\ (forall msg, outcome = os_error msg -> message = msg)
    /\ events (calls st') = events (calls st)
    /\ commands (calls st') = commands (calls st)
    /\ status_notified st' = status_notified st.
Proof.
  cbv zeta. rewrite (copy_step_exact env src dest st).
  destruct (fst (popen_stdin (qube env) (copy_command env dest) src (world st)))
    as [msg | ret_code].
  - do 3 eexists. split; [reflexivity |]. split; [reflexivity |].
    split; [right; split; [reflexivity | discriminate] |].
    split; [discriminate |].
    split; [now intros ? [= ->] |].
    unfold advance. cbn [calls status_notified].
    rewrite events_app, commands_app. cbn. now rewrite !app_nil_r.
  - destruct (ret_code =? 0)%Z eqn:Hret.
    + apply Z.eqb_eq in Hret. subst ret_code.
      do 3 eexists. split; [reflexivity |]. split; [reflexivity |].
      split; [left; now repeat split |].
      split; [intros ? [= <-] ?; congruence |].
      split; [discriminate |].
      unfold advance. cbn [calls status_notified].
      rewrite events_app, commands_app. cbn. now rewrite !app_nil_r.
    + apply Z.eqb_neq in Hret.
      do 3 eexists. split; [reflexivity |]. split; [reflexivity |].
      split; [right; split; [reflexivity | congruence] |].
      split; [now intros ? [= <-] _ |].
      split; [discriminate |].
      unfold advance. cbn [calls status_notified].
      rewrite events_app, commands_app. cbn. now rewrite !app_nil_r.
Qed.

(** The copy exits with 100: it is a failure like any other, and the
    only calls are the debug line and the [Popen]. *)
Lemma copy_reports_0_or_1_witness :
  let env :=
    connection (a_qube quiet idle (exited 100)) (work false false) in
  let run :=
    _copy_file_from_dom0 env (py "/tmp/a.tar.gz") (py "/run/a.tar.gz")
                         (entered env true) in
  fst run = Return (1%Z, py "Command returns code: 100")
  /\ events (calls (snd run)) = []
  /\ List.length (calls (snd run)) = 2%nat.
Proof.
  intros env run.
  destruct (copy_reports_0_or_1 env (py "/tmp/a.tar.gz") (py "/run/a.tar.gz")
                                (entered env true))
    as (code & message & st' & Hrun & Hcalls & Hcode & Hexit & _ & Hevents & _).
  unfold run. rewrite Hrun. cbn [fst snd].
  split; [| split; [exact Hevents | now rewrite Hcalls]].
  rewrite (Hexit 100%Z eq_refl ltac:(discriminate)).
  destruct Hcode as [(_ & _ & Hzero) | [-> _]]; [discriminate | reflexivity].
Defined.



(** X10.  [run_entrypoint] starts the entrypoint whatever [chmod]
    returned: after the [chmod] command and what the wait strategy calls
    for its answer, the next calls are the debug line of the entrypoint
    command and the command itself, through [run_service] when progress
    is shown and through [run_with_args] otherwise. *)
Theorem entrypoint_runs_whatever_chmod_returns
        env entrypoint_path agent_args st :
  let chmod := chmod_command entrypoint_path in
  let entry := entrypoint_command env entrypoint_path agent_args in
  exists later,
    calls (snd (run_entrypoint env entrypoint_path agent_args st))
    = calls st
      ++ run_command_log env chmod :: qube_run_with_args chmod
         :: wait_tail env chmod (world st)
      ++ run_command_log env entry
         :: (if show_progress (self env)
             then qube_run_service (service_name env entry)
             else qube_run_with_args entry)
         :: later.
Proof.
  cbv zeta.
  destruct (wait_step_exact env (chmod_command entrypoint_path) st)
    as [lines H].
  unfold run_entrypoint. cbv zeta.
  rewrite (bind_return _ _ _ _ _ H). cbv beta iota.
  set (st1 := advance st _ _ _).
  set (entry := entrypoint_command env entrypoint_path agent_args).
  assert (Hcalls1 : calls st1
                    = calls st
                      ++ run_command_log env (chmod_command entrypoint_path)
                         :: qube_run_with_args (chmod_command entrypoint_path)
                         :: wait_tail env (chmod_command entrypoint_path)
                                      (world st)) by reflexivity.
  destruct (show_progress (self env)).
  - destruct (streaming_step env entry st1) as [values [Hs | [buf Hs]]].
    + rewrite (bind_raise _ _ _ _ _ Hs). cbn [snd]. unfold advance.
      cbn [calls]. rewrite Hcalls1, <- app_assoc. cbn [app].
      eexists. reflexivity.
    + rewrite (bind_return _ _ _ _ _ Hs). cbv beta iota. unfold ret.
      cbn [snd]. unfold advance. cbn [calls].
      rewrite Hcalls1, <- app_assoc. cbn [app]. eexists. reflexivity.
  - destruct (wait_step_exact env entry st1) as [lines' Hw].
    rewrite (bind_return _ _ _ _ _ Hw). cbv beta iota. unfold ret.
    cbn [snd]. unfold advance. cbn [calls].
    rewrite Hcalls1, <- app_assoc. cbn [app]. eexists. reflexivity.
Qed.

(* ================================================================== *)
(** ** The flag, the final status and the shutdown *)

Lemma existsb_shutdown_pending env values :
  existsb is_shutdown (pending_puts env values) = false.
Proof. induction values as [| p values IH]; [reflexivity | exact IH]. Qed.

Lemma some_or_some (a b : nat) :
  negb (a + b =? 0)%nat = negb (a =? 0)%nat || negb (b =? 0)%nat.
Proof. destruct a, b; reflexivity. Qed.

Lemma method_like_ret {env A} (a : A) : method_like (@ret env A a).
Proof.
  intros st. exists (world st), []. cbn.
  rewrite orb_false_r, advance_nothing. now repeat split.
Qed.

Lemma method_like_raise {env A} (e : Exn) : method_like (@raise env A e).
Proof.
  intros st. exists (world st), []. cbn.
  rewrite orb_false_r, advance_nothing. now repeat split.
Qed.

Lemma method_like_bind {env A B} (m : M env A) (k : A -> M env B) :
  method_like m -> (forall a, method_like (k a)) -> method_like (bind m k).
Proof.
  intros Hm Hk st.
  destruct (Hm st) as (w & added & Hst & Hstop & Hsuccess).
  unfold bind. destruct (m st) as [[a | e] st1]; cbn [snd] in *; subst st1.
  - destruct (Hk a (advance st w
                             (status_notified st
                              || negb (count_done NO_UPDATES (events added)
                                       =? 0)%nat)
                             added))
      as (w' & added' & Hst' & Hstop' & Hsuccess').
    rewrite Hst', advance_advance. cbn [status_notified advance].
    exists w', (added ++ added').
    rewrite events_app, !count_done_app, existsb_app.
    rewrite Hstop, Hstop', Hsuccess, Hsuccess', some_or_some, orb_assoc.
    now repeat split.
  - now exists w, added.
Qed.

Ltac same_advance :=
  match goal with
  | |- exists w added, advance _ ?W _ ?L = _ /\ _ => exists W, L
  end.

Lemma method_like_shell env command show :
  method_like (_run_shell_command_in_qube env command show).
Proof.
  intros st. destruct show.
  - destruct (streaming_step env command st) as [values [H | [buf H]]];
      rewrite H; cbn [snd]; same_advance; unfold run_command_log;
      cbn [events existsb is_shutdown orb].
    + rewrite !count_done_pending, existsb_shutdown_pending. cbn.
      now rewrite orb_false_r.
    + rewrite !events_app, !count_done_app, !count_done_pending.
      rewrite existsb_app, existsb_shutdown_pending.
      destruct (proc_returncode
                  (fst (run_service (qube env) (service_name env command)
                                    (world st))) =? 100)%Z; cbn;
        [now rewrite orb_true_r | now rewrite orb_false_r].
  - destruct (wait_step_exact env command st) as [lines H].
    rewrite H. cbn [snd]. same_advance.
    unfold substrate_code, wait_tail, run_command_log.
    destruct (fst (run_with_args (qube env) command (world st)))
      as [failure | out].
    + destruct (returncode failure =? 100)%Z; cbn;
        [now rewrite orb_true_r | now rewrite orb_false_r].
    + cbn. now rewrite orb_false_r.
Qed.

Lemma method_like_copy env src dest :
  method_like (_copy_file_from_dom0 env src dest).
Proof.
  intros st. rewrite (copy_step_exact env src dest st). cbn [snd].
  same_advance. cbn. now rewrite orb_false_r.
Qed.

Lemma method_like_archive env src_dir : method_like (archive_agent env src_dir).
Proof.
  intros st. rewrite archive_agent_exact.
  destruct (__connected st).
  - destruct (mkdtemp (qube env) (world st)) as [[arch_dir | msg] w].
    + cbv zeta.
      destruct (make_archive (qube env) _ _ _ w) as [[[] | msg] w'];
        cbn [snd]; same_advance; cbn; now rewrite orb_false_r.
    + cbn [snd]. same_advance. cbn. now rewrite orb_false_r.
  - exists (world st), []. cbn.
    rewrite orb_false_r, advance_nothing. now repeat split.
Qed.

Lemma method_like_transfer_agent env src_dir :
  method_like (transfer_agent env src_dir).
Proof.
  unfold transfer_agent.
  apply method_like_bind; [apply method_like_archive |].
  intros [src_arch dest_arch].
  apply method_like_bind; [apply method_like_shell |]. intros [code lines].
  destruct (truthy code); [apply method_like_ret |].
  apply method_like_bind; [apply method_like_copy |]. intros [code' message].
  cbv zeta. destruct (truthy (Z.max code code')); [apply method_like_ret |].
  apply method_like_bind; [apply method_like_shell |].
  intros [code'' lines'']. apply method_like_ret.
Qed.

Lemma method_like_run_entrypoint env entrypoint_path agent_args :
  method_like (run_entrypoint env entrypoint_path agent_args).
Proof.
  unfold run_entrypoint.
  apply method_like_bind; [apply method_like_shell |]. intros [code lines].
  apply method_like_bind; [apply method_like_shell |]. intros [code' lines'].
  apply method_like_ret.
Qed.

Lemma method_like_read_logs env : method_like (read_logs env).
Proof.
  unfold read_logs.
  apply method_like_bind; [apply method_like_shell |]. intros [code lines].
  apply method_like_ret.
Qed.

(** X11.  The three methods treat the connection alike: none of them
    shuts the qube down or puts a Done/Success event; each sets the flag
    [status_notified] exactly when it puts a Done/NoUpdates event, never
    clears it, and leaves the recorded running state and the open state
    of the connection as they are.  So does any sequence of them. *)
Theorem methods_keep_the_flag env :
  (forall src_dir, method_like (transfer_agent env src_dir))
  /\ (forall entrypoint_path agent_args,
         method_like (run_entrypoint env entrypoint_path agent_args))
  /\ method_like (read_logs env)
  /\ (forall (A B : Type) (first : M env A) (next : A -> M env B),
         method_like first -> (forall a, method_like (next a)) ->
         method_like (bind first next)).
Proof.
  split; [exact (method_like_transfer_agent env) |].
  split; [exact (method_like_run_entrypoint env) |].
  split; [exact (method_like_read_logs env) |].
  intros A B first next. apply method_like_bind.
Qed.

(** The transfer and then the entrypoint, which exits with 100: the
    flag is set at the end and one Done/NoUpdates event was put. *)
Lemma methods_keep_the_flag_witness :
  let env :=
    connection (a_qube quiet (reporting [] 100) (exited 0))
               (work false true) in
  let body :=
    bind (transfer_agent env (py "/usr/lib/agent"))
         (fun _ => run_entrypoint
                     env (py "/run/qubes-update/agent/entrypoint.py") []) in
  method_like body
  /\ status_notified (snd (body (entered env true))) = true
  /\ count_done NO_UPDATES (events (calls (snd (body (entered env true)))))
     = 1%nat.
Proof.
  intros env body.
  destruct (methods_keep_the_flag env) as (Htransfer & Hrun & _ & Hseq).
  split; [| split; vm_compute; reflexivity].
  apply Hseq; [apply Htransfer |]. intros _. apply Hrun.
Defined.

Lemma count_success_cleanup_calls env w :
  count_done SUCCESS (events (cleanup_calls env w)) = 0%nat.
Proof.
  rewrite events_cleanup_calls.
  now destruct (cleanup (self env)
                && (substrate_code env (rm_command env) false w =? 100)%Z).
Qed.

Lemma existsb_shutdown_cleanup_calls env w :
  existsb is_shutdown (cleanup_calls env w) = false.
Proof.
  unfold cleanup_calls, wait_tail.
  destruct (cleanup (self env)); [| reflexivity].
  cbn [app existsb is_shutdown run_command_log orb].
  destruct (fst (run_with_args (qube env) (rm_command env) w))
    as [failure | out]; [| reflexivity].
  destruct (returncode failure =? 100)%Z; reflexivity.
Qed.

(** The state at the end of a session. *)
Lemma session_end env (A : Type) (body : M env A) st :
  with_connection env body st
  = (fst (body (snd (__enter__ env st))),
     torn_down (snd (body (snd (__enter__ env st))))).
Proof.
  unfold with_connection.
  rewrite (bind_return _ _ _ _ _ (enter_records env st)).
  rewrite (enter_records env st). cbn [snd].
  destruct (body _) as [result st1]. cbn [fst snd].
  now rewrite exit_tears_down.
Qed.

(** X12.  In a session on a new connection whose body works through the
    methods, the notifier gets exactly one Done/Success event when the
    body put no Done/NoUpdates event, and none when it put one: never
    two, and never both from the body and the teardown's default. *)
Theorem one_success_unless_no_updates env (A : Type) (body : M env A) w :
  method_like body ->
  let st1 := snd (body (snd (__enter__ env (__init__ env w)))) in
  let final := snd (with_connection env body (__init__ env w)) in
  count_done SUCCESS (events (calls final))
  = (if (count_done NO_UPDATES (events (calls st1)) =? 0)%nat
     then 1%nat else 0%nat).
Proof.
  intros Hbody. cbv zeta. rewrite session_end. cbn [snd].
  rewrite (enter_records env (__init__ env w)). cbn [snd].
  match goal with
  | |- context [body ?s] =>
    destruct (Hbody s) as (w1 & added & Hst1 & _ & Hsuccess)
  end.
  rewrite Hst1. unfold torn_down.
  cbn [calls advance status_notified world _initially_running __init__ app
       orb].
  rewrite !events_app, !count_done_app, Hsuccess, count_success_cleanup_calls.
  unfold final_status_calls, shutdown_calls.
  destruct (count_done NO_UPDATES (events added) =? 0)%nat; cbn [negb];
    match goal with
    | |- context [if shuts_down ?e ?x ?y then _ else _] =>
      destruct (shuts_down e x y)
    end; reflexivity.
Qed.

(** Reading the logs exits with 100: the session puts Done/NoUpdates
    and no Done/Success. *)
Lemma one_success_unless_no_updates_witness :
  let env :=
    connection (a_qube always_100 idle (exited 0)) (work false false) in
  let final :=
    snd (with_connection env (read_logs env) (__init__ env true)) in
  count_done SUCCESS (events (calls final)) = 0%nat
  /\ count_done NO_UPDATES (events (calls final)) = 1%nat.
Proof.
  intros env final.
  assert (Hbody : method_like (read_logs env))
    by (apply method_like_read_logs).
  unfold final. split; [| vm_compute; reflexivity].
  rewrite (one_success_unless_no_updates env _ (read_logs env) true Hbody).
  vm_compute. reflexivity.
Defined.

(** X13.  A session whose body works through the methods never shuts
    down a qube that was running when the session was entered: no
    shutdown is among its calls, and [__exit__] leaves the qube in the
    world the removal of the directory left. *)
Theorem running_qube_is_not_shut_down env (A : Type) (body : M env A) st :
  method_like body ->
  is_running (qube env) (world st) = true ->
  let st1 := snd (body (snd (__enter__ env st))) in
  let final := snd (with_connection env body st) in
  existsb is_shutdown (calls final) = existsb is_shutdown (calls st)
  /\ world final = world_after_cleanup env (world st1).
Proof.
  intros Hbody Hrunning. cbv zeta. rewrite session_end. cbn [snd].
  rewrite (enter_records env st). cbn [snd].
  match goal with
  | |- context [body ?s] =>
    destruct (Hbody s) as (w1 & added & Hst1 & Hstop & _)
  end.
  rewrite Hst1. unfold torn_down, shutdown_calls, shuts_down.
  cbn [calls advance status_notified world _initially_running].
  rewrite Hrunning. cbn [truthy_opt negb]. rewrite andb_false_r.
  split; [| reflexivity].
  rewrite !existsb_app, Hstop, existsb_shutdown_cleanup_calls.
  unfold final_status_calls.
  destruct (status_notified st
            || negb (count_done NO_UPDATES (events added) =? 0)%nat);
    cbn; now rewrite !orb_false_r.
Qed.

Lemma running_qube_is_not_shut_down_witness :
  let env := connection (a_qube quiet idle (exited 0)) (work true false) in
  let body := transfer_agent env (py "/usr/lib/agent") in
  let final := snd (with_connection env body (__init__ env true)) in
  existsb is_shutdown (calls final) = false /\ world final = true.
Proof.
  intros env body final.
  assert (Hbody : method_like body)
    by (apply method_like_transfer_agent).
  destruct (running_qube_is_not_shut_down env _ body (__init__ env true)
                                          Hbody eq_refl)
    as [Hcalls Hworld].
  unfold final. split; [exact Hcalls |].
  rewrite Hworld. vm_compute. reflexivity.
Defined.

Ltac first_call_is_mkdtemp :=
  cbn [snd]; unfold ret; cbn [snd];
  rewrite ?advance_advance; unfold advance; cbn [calls app];
  eexists; reflexivity.

(** X14.  A connection is open between [__enter__] and [__exit__] and
    only there.  In the state [__enter__] leaves, [transfer_agent] goes
    past its assertion: its first call is [tempfile.mkdtemp], and
    whatever happens next it does not raise [AssertionError].  In the
    state a session leaves behind, whatever its body did,
    [transfer_agent] raises [AssertionError] and does nothing. *)
Theorem connection_is_open_inside_the_scope_only
        env (A : Type) (body : M env A) st src_dir :
  (exists later,
      calls (snd (transfer_agent env src_dir (snd (__enter__ env st))))
      = calls st ++ os_mkdtemp :: later)
  /\ fst (transfer_agent env src_dir (snd (__enter__ env st)))
     <> Raise AssertionError
  /\ transfer_agent env src_dir (snd (with_connection env body st))
     = (Raise AssertionError, snd (with_connection env body st)).
Proof.
  set (st0 := snd (__enter__ env st)).
  assert (Hopen : __connected st0 = true) by reflexivity.
  assert (Hcalls : calls st0 = calls st) by reflexivity.
  pose proof (archive_agent_exact env src_dir st0) as Harch.
  rewrite Hopen in Harch.
  assert (Hinside :
            (exists later,
                calls (snd (transfer_agent env src_dir st0))
                = calls st0 ++ os_mkdtemp :: later)
            /\ fst (transfer_agent env src_dir st0) <> Raise AssertionError).
  { unfold transfer_agent.
    destruct (mkdtemp (qube env) (world st0)) as [[arch_dir | msg] w];
      [| rewrite (bind_raise _ _ _ _ _ Harch);
         split; [now eexists | discriminate]].
    cbv zeta in Harch.
    destruct (make_archive (qube env) _ _ _ w) as [[[] | msg] w'];
      [| rewrite (bind_raise _ _ _ _ _ Harch);
         split; [now eexists | discriminate]].
    rewrite (bind_return _ _ _ _ _ Harch). cbv beta iota zeta.
    match goal with
    | |- context [bind (_run_shell_command_in_qube env ?c false) _ ?x] =>
      destruct (wait_step_exact env c x) as [lines HA];
        rewrite (bind_return _ _ _ _ _ HA)
    end.
    cbv beta iota.
    destruct (truthy _);
      [split; [first_call_is_mkdtemp | discriminate] |].
    match goal with
    | |- context [bind (_copy_file_from_dom0 env ?s ?d) _ ?x] =>
      rewrite (bind_return _ _ _ _ _ (copy_step_exact env s d x))
    end.
    match goal with
    | |- context [let '(_, _) := ?r in _] => destruct r as [codeB outB]
    end.
    destruct (truthy _);
      [split; [first_call_is_mkdtemp | discriminate] |].
    match goal with
    | |- context [bind (_run_shell_command_in_qube env ?c false) _ ?x] =>
      destruct (wait_step_exact env c x) as [lines' HC];
        rewrite (bind_return _ _ _ _ _ HC)
    end.
    split; [first_call_is_mkdtemp | discriminate]. }
  destruct Hinside as [Hfirst Hassert].
  split; [now rewrite <- Hcalls | split; [exact Hassert |]].
  rewrite session_end. cbn [snd].
  unfold transfer_agent, archive_agent, bind, read, assert, raise.
  reflexivity.
Qed.

(* ================================================================== *)
(** ** The paths of the archive *)

Lemma split_last_sep_parts (p : str) :
  Forall not_sep (snd (split_last_sep p))
  /\ (fst (split_last_sep p) = [] -> snd (split_last_sep p) = p).
Proof.
  induction p as [| c rest [IHtail IHwhole]]; [now split |].
  cbn [split_last_sep].
  destruct (split_last_sep rest) as [h t]. cbn [fst snd] in *.
  destruct (c =? 47)%N eqn:Hc.
  - destruct h as [| h0 h']; cbn [fst snd].
    + split; [| discriminate]. now rewrite <- (IHwhole eq_refl).
    + split; [exact IHtail | discriminate].
  - apply N.eqb_neq in Hc. destruct h as [| h0 h']; cbn [fst snd].
    + split; [constructor; assumption |].
      intros _. now rewrite (IHwhole eq_refl).
    + split; [exact IHtail | discriminate].
Qed.

Lemma basename_no_sep (p : str) : Forall not_sep (basename p).
Proof. apply split_last_sep_parts. Qed.

Lemma path_join_relative (a b : str) :
  List.hd 0%N b <> 47%N -> path_join a b = a ++ join_sep a ++ b.
Proof.
  intros Hb. unfold join_sep.
  destruct b as [| b0 b'].
  - unfold path_join. destruct a as [| a0 a']; [reflexivity |].
    now destruct (List.last (a0 :: a') 0 =? 47)%N.
  - cbn [List.hd] in Hb.
    assert (Hrel : path_join a (b0 :: b')
                   = match a with
                     | [] => b0 :: b'
                     | _ :: _ =>
                       if (List.last a 0 =? 47)%N
                       then a ++ b0 :: b' else a ++ 47%N :: b0 :: b'
                     end).
    { unfold path_join. destruct b0 as [| q]; [reflexivity |].
      do 6 (destruct q as [q | q |]; try reflexivity).
      exfalso. now apply Hb. }
    rewrite Hrel. destruct a as [| a0 a']; [reflexivity |].
    now destruct (List.last (a0 :: a') 0 =? 47)%N.
Qed.

(** X15.  Whatever [src_dir] is, the archive is written in the qube
    right inside [dest_dir]: its path is [dest_dir], then one separator
    exactly when [dest_dir] is not empty and does not end with one, then
    a file name without any separator that ends with [.tar.gz], the base
    name of [src_dir] once its leading and trailing separators are
    stripped; the [tar] command extracts that path into [dest_dir]. *)
Theorem archive_lands_in_dest_dir env src_dir st src_arch dest_arch st1 :
  archive_agent env src_dir st = (Return (src_arch, dest_arch), st1) ->
  let name := basename (strip_sep src_dir) in
  let sep := join_sep (dest_dir (self env)) in
  Forall not_sep (name ++ py ".tar.gz")
  /\ dest_arch = dest_dir (self env) ++ sep ++ name ++ py ".tar.gz"
  /\ tar_command env dest_arch
     = [py "tar"; py "-xzf";
        dest_dir (self env) ++ sep ++ name ++ py ".tar.gz";
        py "-C"; dest_dir (self env)].
Proof.
  intros Hrun. rewrite archive_agent_exact in Hrun.
  destruct (__connected st); [| discriminate].
  destruct (mkdtemp (qube env) (world st)) as [[arch_dir | msg] w];
    [| discriminate].
  cbv zeta in Hrun.
  destruct (make_archive (qube env) _ _ _ w) as [[[] | msg] w'];
    [| discriminate].
  injection Hrun as _ <- _.
  cbv zeta. set (name := basename (strip_sep src_dir)).
  assert (Hname : Forall not_sep (name ++ py ".tar.gz")).
  { apply Forall_app. split; [apply basename_no_sep |].
    repeat constructor; discriminate. }
  assert (Hjoin : path_join (dest_dir (self env)) (name ++ py ".tar.gz")
                  = dest_dir (self env) ++ join_sep (dest_dir (self env))
                    ++ name ++ py ".tar.gz").
  { apply path_join_relative. destruct name as [| n0 name'].
    - cbn. discriminate.
    - cbn. inversion Hname. assumption. }
  split; [exact Hname |]. split; [exact Hjoin |].
  unfold tar_command. now rewrite Hjoin.
Qed.

Lemma archive_lands_in_dest_dir_witness :
  let env := connection (a_qube quiet idle (exited 0)) (work false false) in
  exists src_arch st1,
    archive_agent env (py "/usr/lib/qubes-vm-update/agent")
                  (entered env true)
    = (Return (src_arch, py "/run/qubes-update/agent.tar.gz"), st1)
    /\ py "/run/qubes-update/agent.tar.gz"
       = py "/run/qubes-update" ++ [47%N] ++ py "agent" ++ py ".tar.gz".
Proof.
  intros env.
  assert (H : exists src_arch st1,
             archive_agent env (py "/usr/lib/qubes-vm-update/agent")
                           (entered env true)
             = (Return (src_arch, py "/run/qubes-update/agent.tar.gz"), st1))
    by (do 2 eexists; cbv; reflexivity).
  destruct H as (src_arch & st1 & H). exists src_arch, st1.
  split; [exact H |].
  destruct (archive_lands_in_dest_dir _ _ _ _ _ _ H) as (_ & Hpath & _).
  exact Hpath.
Defined.

(* ================================================================== *)
(** ** The events a connection puts *)

Lemma only_calls_ret {env A} allowed (a : A) :
  only_calls allowed (@ret env A a).
Proof.
  intros st. exists (world st), (status_notified st), [].
  cbn. now rewrite advance_nothing.
Qed.

Lemma only_calls_raise {env A} allowed (e : Exn) :
  only_calls allowed (@raise env A e).
Proof.
  intros st. exists (world st), (status_notified st), [].
  cbn. now rewrite advance_nothing.
Qed.

Lemma only_calls_bind {env A B} allowed (m : M env A) (k : A -> M env B) :
  only_calls allowed m -> (forall a, only_calls allowed (k a)) ->
  only_calls allowed (bind m k).
Proof.
  intros Hm Hk st. destruct (Hm st) as (w & n & added & Hst & Hok).
  unfold bind. destruct (m st) as [[a | e] st1]; cbn [snd] in *; subst st1.
  - destruct (Hk a (advance st w n added)) as (w' & n' & added' & Hst' & Hok').
    rewrite Hst', advance_advance. exists w', n', (added ++ added').
    split; [reflexivity |]. now rewrite forallb_app, Hok, Hok'.
  - now exists w, n, added.
Qed.

Lemma pending_puts_allowed env values :
  forallb progress_or_outcome (pending_puts env values) = true.
Proof. induction values as [| p values IH]; [reflexivity | exact IH]. Qed.

Lemma only_calls_shell env command show :
  only_calls progress_or_outcome
             (_run_shell_command_in_qube env command show).
Proof.
  intros st. destruct show.
  - destruct (streaming_step env command st) as [values [H | [buf H]]];
      rewrite H; cbn [snd]; do 3 eexists; (split; [reflexivity |]);
      cbn [forallb progress_or_outcome run_command_log andb].
    + apply pending_puts_allowed.
    + rewrite forallb_app, pending_puts_allowed.
      now destruct (proc_returncode _ =? 100)%Z.
  - destruct (wait_step_exact env command st) as [lines H].
    rewrite H. cbn [snd]. do 3 eexists. split; [reflexivity |].
    unfold wait_tail, run_command_log.
    destruct (fst (run_with_args (qube env) command (world st)))
      as [failure | out]; [| reflexivity].
    now destruct (returncode failure =? 100)%Z.
Qed.

Lemma only_calls_copy env src dest :
  only_calls progress_or_outcome (_copy_file_from_dom0 env src dest).
Proof.
  intros st. rewrite (copy_step_exact env src dest st). cbn [snd].
  do 3 eexists. split; reflexivity.
Qed.

Lemma only_calls_archive env src_dir :
  only_calls progress_or_outcome (archive_agent env src_dir).
Proof.
  intros st. rewrite archive_agent_exact.
  destruct (__connected st).
  - destruct (mkdtemp (qube env) (world st)) as [[arch_dir | msg] w].
    + cbv zeta.
      destruct (make_archive (qube env) _ _ _ w) as [[[] | msg] w'];
        cbn [snd]; do 3 eexists; split; reflexivity.
    + cbn [snd]. do 3 eexists. split; reflexivity.
  - exists (world st), (status_notified st), [].
    now rewrite advance_nothing.
Qed.

Lemma teardown_calls_allowed env (st : State env) :
  forallb progress_or_outcome
          (final_status_calls env (status_notified st)
           ++ cleanup_calls env (world st)
           ++ shutdown_calls env (world st) (_initially_running st))
  = true.
Proof.
  rewrite !forallb_app.
  unfold final_status_calls, cleanup_calls, wait_tail, shutdown_calls,
    run_command_log.
  destruct (status_notified st); destruct (cleanup (self env));
    destruct (shuts_down env (world st) (_initially_running st));
    cbn [forallb progress_or_outcome app andb done status info];
    try reflexivity;
    destruct (fst (run_with_args (qube env) (rm_command env) (world st)))
      as [failure | out]; try reflexivity;
    now destruct (returncode failure =? 100)%Z.
Qed.

(** X16.  The only status events a connection puts are Pending with a
    percentage, Done/Success and Done/NoUpdates: neither the three
    methods nor a whole session built on them ever puts Wait, Done/Error
    or Done/Cancelled, whatever the qube answers and whether commands
    fail or not. *)
Theorem connection_reports_no_error env :
  (forall src_dir,
      only_calls progress_or_outcome (transfer_agent env src_dir))
  /\ (forall entrypoint_path agent_args,
         only_calls progress_or_outcome
                    (run_entrypoint env entrypoint_path agent_args))
  /\ only_calls progress_or_outcome (read_logs env)
  /\ (forall (A : Type) (body : M env A) st,
         only_calls progress_or_outcome body ->
         exists added,
           calls (snd (with_connection env body st)) = calls st ++ added
           /\ forallb progress_or_outcome added = true).
Proof.
  split; [| split; [| split]].
  - intros src_dir. unfold transfer_agent.
    apply only_calls_bind; [apply only_calls_archive |].
    intros [src_arch dest_arch].
    apply only_calls_bind; [apply only_calls_shell |]. intros [code lines].
    destruct (truthy code); [apply only_calls_ret |].
    apply only_calls_bind; [apply only_calls_copy |]. intros [code' message].
    cbv zeta. destruct (truthy (Z.max code code')); [apply only_calls_ret |].
    apply only_calls_bind; [apply only_calls_shell |].
    intros [code'' lines'']. apply only_calls_ret.
  - intros entrypoint_path agent_args. unfold run_entrypoint.
    apply only_calls_bind; [apply only_calls_shell |]. intros [code lines].
    apply only_calls_bind; [apply only_calls_shell |]. intros [code' lines'].
    apply only_calls_ret.
  - unfold read_logs.
    apply only_calls_bind; [apply only_calls_shell |]. intros [code lines].
    apply only_calls_ret.
  - intros A body st Hbody. rewrite session_end. cbn [snd].
    rewrite (enter_records env st). cbn [snd].
    match goal with
    | |- context [body ?s] =>
      destruct (Hbody s) as (w1 & n1 & added & Hst1 & Hok)
    end.
    rewrite Hst1. set (st1 := advance _ w1 n1 added).
    unfold torn_down. cbn [calls].
    exists (added
            ++ final_status_calls env (status_notified st1)
            ++ cleanup_calls env (world st1)
            ++ shutdown_calls env (world st1) (_initially_running st1)).
    split.
    + change (calls st1) with (calls st ++ added). now rewrite <- app_assoc.
    + now rewrite forallb_app, Hok, teardown_calls_allowed.
Qed.

(** A session whose transfer fails at [mkdir]: the failure is logged
    and returned, and the only event is the Done/Success of the
    teardown. *)
Lemma connection_reports_no_error_witness :
  let env :=
    connection (a_qube (fails_on "mkdir" 1
                                 (pyb "mkdir: Permission denied" ++ LF) [])
                       idle (exited 0))
               (work false false) in
  let final :=
    snd (with_connection env (transfer_agent env (py "/usr/lib/agent"))
                         (__init__ env true)) in
  forallb progress_or_outcome (calls final) = true
  /\ events (calls final) = [done (py "work") SUCCESS].
Proof.
  intros env final.
  destruct (connection_reports_no_error env) as (Htransfer & _ & _ & Hsession).
  destruct (Hsession _ (transfer_agent env (py "/usr/lib/agent"))
                     (__init__ env true) (Htransfer _))
    as (added & Hcalls & Hok).
  unfold final. split; [| vm_compute; reflexivity].
  rewrite Hcalls. exact Hok.
Defined.

(* ================================================================== *)
(** ** The exit code 100, command by command *)

(** When every line of stderr read before the latch is valid UTF-8, the
    loop of [_collect_stderr] returns, and all it calls is the notifier,
    with progress events. *)
Lemma collect_stderr_loop_decodes env (lines : list bytes) :
  forall buf finished st,
    stderr_decodes (fl env) finished lines = true ->
    exists buf' values,
      _collect_stderr_loop env lines buf finished st
      = (Return buf',
         advance st (world st) (status_notified st)
                 (pending_puts env values)).
Proof.
  induction lines as [| line rest IH]; intros buf finished st Hlines.
  - exists buf, []. cbn. unfold ret. now rewrite advance_nothing.
  - destruct line as [| b0 line'].
    + exists buf, []. cbn. unfold ret. now rewrite advance_nothing.
    + destruct finished.
      * eexists. exists [].
        rewrite collect_stderr_loop_latched. cbn [pending_puts List.map].
        now rewrite advance_nothing.
      * cbn [_collect_stderr_loop negb] in *.
        cbn [stderr_decodes] in Hlines.
        destruct (decode_utf8 (b0 :: line')) as [decoded |]; [| discriminate].
        cbv zeta.
        destruct (float_of_str (fl env) (_string_sanitization (rstrip decoded)))
          as [progress |].
        -- rewrite bind_emit.
           assert (Hrest : stderr_decodes
                             (fl env)
                             (if float_eq_100 (fl env) progress
                              then true else false) rest = true)
             by (now destruct (float_eq_100 (fl env) progress)).
           destruct (IH buf _
                        (advance st (world st) (status_notified st)
                                 [notifier_put
                                    (pending (qube_name (self env)) progress)])
                        Hrest)
             as (buf' & values & Hloop).
           exists buf', (progress :: values).
           rewrite Hloop, advance_advance. reflexivity.
        -- exact (IH _ false st Hlines).
Qed.

(** C1, as amended.  Take a command whose substrate result carries the
    exit code 100 and whose output is read without a decoding error:
    always with the wait strategy, and with the streaming strategy when
    every line of stderr read before the latch is valid UTF-8.  It
    returns the code 0 to the caller, sets the flag [status_notified]
    and puts one Done/NoUpdates event of its own on the notifier,
    whether or not a final status was emitted before in the session; a
    second such command puts a second event.  All the flag does is in
    the teardown: with the flag set [__exit__] puts no Done/Success,
    without it it puts one. *)
Theorem exit_100_reported_as_0_with_event env command show st :
  substrate_code env command show (world st) = 100%Z ->
  (show = true ->
   stderr_decodes
     (fl env) false
     (stderr (fst (run_service (qube env) (service_name env command)
                               (world st))))
   = true) ->
  (exists lines st',
      _run_shell_command_in_qube env command show st
      = (Return (0%Z, lines), st')
      /\ status_notified st' = true
      /\ count_done NO_UPDATES (events (calls st'))
         = S (count_done NO_UPDATES (events (calls st))))
  /\ (forall later : State env,
         count_done SUCCESS (events (calls (snd (__exit__ env later))))
         = ((if status_notified later then 0 else 1)
            + count_done SUCCESS (events (calls later)))%nat).
Proof.
  intros Hcode Hdecodes. split.
  - unfold substrate_code in Hcode. destruct show.
    + specialize (Hdecodes eq_refl).
      set (answer :=
             run_service (qube env) (service_name env command) (world st))
        in *.
      destruct (collect_stderr_loop_decodes
                  env (stderr (fst answer)) [] false
                  (advance st (snd answer) (status_notified st)
                           [run_command_log env command;
                            qube_run_service (service_name env command)])
                  Hdecodes)
        as (buf & values & Hloop).
      rewrite (streaming_after_stderr env command st _ _ Hloop).
      fold answer. rewrite Hcode. cbn [Z.eqb Pos.eqb]. unfold reported.
      cbn [Z.eqb Pos.eqb].
      do 2 eexists. split; [reflexivity |]. split; [reflexivity |].
      rewrite !advance_advance. unfold advance. cbn [calls].
      rewrite !events_app, !count_done_app.
      unfold run_command_log. cbn [events app].
      rewrite ?events_app, ?count_done_app, count_done_pending.
      cbn. lia.
    + destruct (run_with_args (qube env) command (world st))
        as [[err | out] w] eqn:Hanswer; cbn [fst] in Hcode; [| discriminate].
      rewrite (wait_exits_100 _ _ _ _ _ Hanswer Hcode).
      do 2 eexists. split; [reflexivity |]. split; [reflexivity |].
      unfold advance. cbn [calls].
      rewrite events_app, count_done_app. cbn. lia.
  - intros later. rewrite exit_tears_down. cbn [snd].
    unfold torn_down. cbn [calls].
    rewrite !events_app, !count_done_app, count_success_cleanup_calls.
    unfold final_status_calls, shutdown_calls.
    destruct (status_notified later),
             (shuts_down env (world later) (_initially_running later));
      cbn; lia.
Qed.

(** The second command of a session that exits with 100, run with the
    streaming strategy on the diagnostic lines of the specification's
    example: the flag is already set, the code is 0 again and a second
    event is put; the teardown that follows puts no Done/Success. *)
Lemma exit_100_reported_as_0_with_event_witness :
  let env :=
    connection (a_qube always_100 (reporting progress_lines 100) (exited 0))
               (work false true) in
  let st := snd (read_logs env (entered env true)) in
  status_notified st = true
  /\ count_done NO_UPDATES (events (calls st)) = 1%nat
  /\ exists lines st',
      _run_shell_command_in_qube env (cat_command env) true st
      = (Return (0%Z, lines), st')
      /\ count_done NO_UPDATES (events (calls st')) = 2%nat
      /\ count_done SUCCESS (events (calls (snd (__exit__ env st'))))
         = count_done SUCCESS (events (calls st')).
Proof.
  intros env st.
  split; [vm_compute; reflexivity | split; [vm_compute; reflexivity |]].
  destruct (exit_100_reported_as_0_with_event
              env (cat_command env) true st
              ltac:(vm_compute; reflexivity)
              ltac:(intros _; vm_compute; reflexivity))
    as [(lines & st' & Hrun & Hflag & Hcount) Hexit].
  exists lines, st'. split; [exact Hrun |].
  split; [rewrite Hcount; vm_compute; reflexivity |].
  rewrite (Hexit st'), Hflag. reflexivity.
Defined.
